(** * Baserow ERD viewer: entity normalisation, cascading filters, graph derivation

    A shallow embedding of the frontend of frodoslav/baserow-erd-viewer:

    - [Home]          the page component of [frontend/app/page.tsx]
                      (payload normalisation and the cascading filter);
    - [ERDDiagram]    the diagram component with its own filter panel
                      ([ERDDiagramInner] and [WorkspaceAndDatabaseFilter]);
    - [ERDDiagramV1]  the earlier diagram component without filters;
    - [ERDPage]       the per-application page ([/erd/[appId]]).

    React's [useState] cells are fields of an explicit state record, the
    [useMemo] derivations are functions of that state and of the payload, and
    the event handlers are state transformers. *)

From Stdlib Require Import ZArith List String Ascii Bool Lia Permutation.
From Stdlib Require Import DecimalString DecimalZ.
From stdpp Require Import base decidable countable gmap.
Import ListNotations.

Local Open Scope string_scope.
Local Open Scope Z_scope.

(** ** Host-language values and primitives *)

Module JS.

(** A JavaScript number that stands for an identifier: the payload's
    identifiers are integers, and the only other number the code can make
    out of them is [NaN] ([Number(undefined)], [Number('all')]). A number
    that is not an integer never equals an identifier under [===]; like
    [NaN] it matches nothing, and [NaN] stands for it. *)
Inductive number : Type :=
| NaN
| Num (z : Z).

(** [a === b] on numbers: [NaN] differs from everything, itself included. *)
Definition strict_eq (a b : number) : bool :=
  match a, b with
  | Num x, Num y => Z.eqb x y
  | _, _ => false
  end.

(** [Number(x)] where [x] already is a number. *)
Definition Number_of_number (z : Z) : number := Num z.

(** [if (x)] on a number: zero is falsy. *)
Definition truthy (z : Z) : bool := negb (Z.eqb z 0).

(** [s || fallback] on strings: the empty string is falsy. *)
Definition or_else (s fallback : string) : string :=
  if String.eqb s "" then fallback else s.

(** [n.toString()] and the interpolation [`${n}`] of an integer. *)
Definition toString (z : Z) : string := NilZero.string_of_int (Z.to_int z).

(** [s.includes(sub)]. *)
Fixpoint includes (s sub : string) : bool :=
  if String.prefix sub s then true
  else match s with
       | EmptyString => false
       | String _ s' => includes s' sub
       end.

(** [xs.sort(cmp)]: a stable insertion sort; [cmp a b < 0] puts [a] first. *)
Section Sort.
Context {A : Type} (cmp : A -> A -> Z).

Fixpoint insert_sorted (x : A) (l : list A) : list A :=
  match l with
  | [] => [x]
  | y :: l' => if cmp x y <? 0 then x :: y :: l' else y :: insert_sorted x l'
  end.

Definition sort (l : list A) : list A :=
  fold_left (fun acc x => insert_sorted x acc) l [].
End Sort.

(** [Set<number>]: iteration follows insertion order, [add] of a member is
    a no-op. *)
Definition NumSet : Type := list Z.

Definition Set_has (s : NumSet) (x : Z) : bool := existsb (Z.eqb x) s.

Definition Set_add (s : NumSet) (x : Z) : NumSet :=
  if Set_has s x then s else (s ++ [x])%list.

(** [Map<number, V>]: [set] on a present key replaces the value and keeps
    the key's position; [values()] follows first-insertion order. *)
Definition NumMap (V : Type) : Type := list (Z * V).

Definition Map_has {V} (m : NumMap V) (k : Z) : bool :=
  existsb (fun kv => Z.eqb (fst kv) k) m.

Fixpoint Map_set {V} (m : NumMap V) (k : Z) (v : V) : NumMap V :=
  match m with
  | [] => [(k, v)]
  | (k', v') :: m' =>
      if Z.eqb k' k then (k', v) :: m' else (k', v') :: Map_set m' k v
  end.

Definition Map_values {V} (m : NumMap V) : list V := map snd m.

(** The primitives whose result depends on the host: [Number(s)] on a
    string, [a.localeCompare(b)] and [s.toLowerCase()]. *)
Class Host : Type := {
  Number_of_string : string -> number;
  localeCompare : string -> string -> Z;
  toLowerCase : string -> string
}.

(** A host for evaluating the model: [Number] reads signed decimal
    integers (the empty string is zero, anything else is [NaN]),
    [localeCompare] orders by code unit, [toLowerCase] maps A-Z. *)
Definition decimal_Number (s : string) : number :=
  if String.eqb s "" then Num 0
  else match NilZero.int_of_string s with
       | Some d => Num (Z.of_int d)
       | None => NaN
       end.

Definition codeunit_compare (a b : string) : Z :=
  match String.compare a b with
  | Lt => -1
  | Eq => 0
  | Gt => 1
  end.

Definition ascii_lower (c : ascii) : ascii :=
  let n := nat_of_ascii c in
  if (65 <=? n)%nat && (n <=? 90)%nat then ascii_of_nat (n + 32) else c.

Fixpoint ascii_toLowerCase (s : string) : string :=
  match s with
  | EmptyString => EmptyString
  | String c s' => String (ascii_lower c) (ascii_toLowerCase s')
  end.

#[global] Instance ascii_host : Host := {|
  Number_of_string := decimal_Number;
  localeCompare := codeunit_compare;
  toLowerCase := ascii_toLowerCase
|}.

End JS.

Import JS.

(** ** The payload ([interface ERDData]) *)

Module Field.
Record t : Type := {
  id : Z;
  name : string;
  type : string;
  link_row_table_id : option Z
}.
End Field.

Module Table.
Record t : Type := {
  id : Z;
  name : string;
  database_id : Z;
  database_name : string;
  workspace_id : Z;
  workspace_name : string;
  fields : list Field.t
}.
End Table.

Module Relationship.
Record t : Type := {
  source_table_id : Z;
  source_table_name : string;
  target_table_id : Z;
  target_table_name : string;
  field_id : Z;
  field_name : string
}.
End Relationship.

(** An entry of the payload's optional [databases] list. *)
Module DatabaseRow.
Record t : Type := {
  id : Z;
  name : string;
  workspace_id : Z;
  workspace_name : string;
  has_tables : option bool;
  table_count : option Z
}.
End DatabaseRow.

(** An entry of the payload's optional [workspaces] list. *)
Module WorkspaceRow.
Record t : Type := {
  id : Z;
  name : string
}.
End WorkspaceRow.

Record ERDData : Type := {
  tables : list Table.t;
  relationships : list Relationship.t;
  databases : option (list DatabaseRow.t);
  workspaces : option (list WorkspaceRow.t)
}.

(** ** The filter state and its handlers

    [selectedWorkspace] and [selectedDatabase] are strings: ['all'] or the
    [value] of the chosen [<option>], which is [id.toString()]. *)

Record FilterState : Type := {
  selectedWorkspace : string;
  selectedDatabase : string
}.

Definition initialState : FilterState :=
  {| selectedWorkspace := "all"; selectedDatabase := "all" |}.

(** [setSelectedWorkspace(v)] and [setSelectedDatabase(v)]. *)
Definition setSelectedWorkspace (v : string) (st : FilterState) : FilterState :=
  {| selectedWorkspace := v; selectedDatabase := selectedDatabase st |}.

Definition setSelectedDatabase (v : string) (st : FilterState) : FilterState :=
  {| selectedWorkspace := selectedWorkspace st; selectedDatabase := v |}.

(** Both components declare the same two handlers. *)
Definition handleWorkspaceChange (value : string) (st : FilterState) : FilterState :=
  setSelectedDatabase "all" (setSelectedWorkspace value st).

Definition handleDatabaseChange (value : string) (st : FilterState) : FilterState :=
  setSelectedDatabase value st.

(** [disabled={selectedWorkspace === 'all'}] on the database [<select>]. *)
Definition databaseSelectDisabled (st : FilterState) : bool :=
  String.eqb (selectedWorkspace st) "all".

(** What the user can do: the workspace selector always answers, the
    database selector only while it is enabled. *)
Inductive Event : Type :=
| WorkspaceChange (value : string)
| DatabaseChange (value : string).

Inductive step : FilterState -> Event -> FilterState -> Prop :=
| step_workspace st value :
    step st (WorkspaceChange value) (handleWorkspaceChange value st)
| step_database st value :
    databaseSelectDisabled st = false ->
    step st (DatabaseChange value) (handleDatabaseChange value st).

Inductive reachable : FilterState -> Prop :=
| reachable_initial : reachable initialState
| reachable_step st e st' : reachable st -> step st e st' -> reachable st'.

(** ** What the components build *)

(** An element of [allDatabases]. *)
Module Database.
Record t : Type := {
  id : Z;
  name : string;
  workspace_id : number;
  workspace_name : string;
  tableCount : Z;
  hasTables : bool
}.

(** [{...db, tableCount, hasTables}]. *)
Definition with_counts (db : t) (count : Z) (has : bool) : t :=
  {| id := id db; name := name db; workspace_id := workspace_id db;
     workspace_name := workspace_name db; tableCount := count; hasTables := has |}.
End Database.

(** An element of [allWorkspaces]. *)
Module Workspace.
Record t : Type := {
  id : Z;
  name : string;
  databaseCount : Z;
  tableCount : Z
}.
End Workspace.

(** A field of a diagram node: [{...field, isPrimary, isForeign}]. *)
Module NodeField.
Record t : Type := {
  id : Z;
  name : string;
  type : string;
  link_row_table_id : option Z;
  isPrimary : bool;
  isForeign : bool
}.
End NodeField.

(** A diagram node. The constant presentation attributes ([style],
    [draggable]) carry no data and are left out. *)
Module Node.
Record t : Type := {
  id : string;
  type : string;
  x : Z;
  y : Z;
  label : string;
  fields : list NodeField.t
}.
End Node.

(** A diagram edge, without its constant [style] and [labelStyle]. *)
Module Edge.
Record t : Type := {
  id : string;
  source : string;
  target : string;
  label : string;
  type : string;
  animated : bool
}.
End Edge.

(** [xs.length] as a number. *)
Definition len {A} (l : list A) : Z := Z.of_nat (length l).

(** [t => Number(t.database_id) === dbId] and its workspace twin, the
    callbacks of most [filter] and [find] calls. *)
Definition inDatabase (dbId : number) (t : Table.t) : bool :=
  strict_eq (Number_of_number (Table.database_id t)) dbId.

Definition inWorkspace (wsId : number) (t : Table.t) : bool :=
  strict_eq (Number_of_number (Table.workspace_id t)) wsId.

(** The table filter, written twice in the source ([Home] and
    [ERDDiagramInner]) with the same body. *)
Definition filterTables `{Host} (tables : list Table.t) (st : FilterState)
  : list Table.t :=
  let filtered := tables in
  let filtered :=
    if negb (String.eqb (selectedWorkspace st) "all") then
      let workspaceId := Number_of_string (selectedWorkspace st) in
      List.filter (inWorkspace workspaceId) filtered
    else filtered in
  let filtered :=
    if negb (String.eqb (selectedDatabase st) "all") then
      let databaseId := Number_of_string (selectedDatabase st) in
      List.filter (inDatabase databaseId) filtered
    else filtered in
  filtered.

(** ** What a [fetch] can come to

    The pages wait for [fetch(url)] and then for [response.json()]; either
    may throw. What is thrown is an [Error] object, which has a [message],
    or some other value, of which the code can only print [String(e)]. *)

Module Fetch.

Inductive Thrown : Type :=
| ErrorObject (message : string)
| OtherValue (text : string).

Record Response (Body : Type) : Type := {
  ok : bool;
  status : Z;
  json : Body + Thrown
}.

Arguments ok {Body} _.
Arguments status {Body} _.
Arguments json {Body} _.

Inductive Outcome (Body : Type) : Type :=
| Rejected (e : Thrown)
| Resolved (response : Response Body).

Arguments Rejected {Body} _.
Arguments Resolved {Body} _.

End Fetch.

(** ** [Home] ([frontend/app/page.tsx]) *)

Module Home.
Section WithHost.
Context `{Host}.

(** The explicit path of [allDatabases]: one entry per payload row. *)
Definition databaseOfRow (tables : list Table.t) (db : DatabaseRow.t)
  : Database.t :=
  let tableCount :=
    match DatabaseRow.table_count db with
    | Some c => c
    | None => len (List.filter (inDatabase (Num (DatabaseRow.id db))) tables)
    end in
  let hasTables :=
    match DatabaseRow.has_tables db with
    | Some b => b
    | None => tableCount >? 0
    end in
  {| Database.id := DatabaseRow.id db;
     Database.name := DatabaseRow.name db;
     Database.workspace_id := Num (DatabaseRow.workspace_id db);
     Database.workspace_name := DatabaseRow.workspace_name db;
     Database.tableCount := tableCount;
     Database.hasTables := hasTables |}.

(** [uniqueDatabaseIds]: the ids of the tables, falsy ones skipped. *)
Definition uniqueDatabaseIds (tables : list Table.t) : NumSet :=
  fold_left
    (fun ids table =>
       if truthy (Table.database_id table)
       then Set_add ids (Table.database_id table) else ids)
    tables [].

(** The fallback path of [allDatabases]: the entry made for [dbId]. *)
Definition derivedDatabase (tables : list Table.t) (dbId : Z) : Database.t :=
  let sampleTable := List.find (inDatabase (Num dbId)) tables in
  let tableCount := len (List.filter (inDatabase (Num dbId)) tables) in
  {| Database.id := dbId;
     Database.name :=
       or_else (from_option Table.database_name "" sampleTable)
               ("Database " ++ toString dbId);
     Database.workspace_id :=
       match sampleTable with
       | Some t => Number_of_number (Table.workspace_id t)
       | None => NaN
       end;
     Database.workspace_name :=
       or_else (from_option Table.workspace_name "" sampleTable)
               "Unknown Workspace";
     Database.tableCount := tableCount;
     Database.hasTables := tableCount >? 0 |}.

Definition byDatabaseName (a b : Database.t) : Z :=
  localeCompare (Database.name a) (Database.name b).

Definition allDatabases (erdData : option ERDData) : list Database.t :=
  match erdData with
  | None => []
  | Some data =>
      match databases data with
      | Some (db :: dbs) => map (databaseOfRow (tables data)) (db :: dbs)
      | _ =>
          if (length (tables data) =? 0)%nat then []
          else sort byDatabaseName
                 (map (derivedDatabase (tables data))
                      (uniqueDatabaseIds (tables data)))
      end
  end.

(** The explicit path of [allWorkspaces]. *)
Definition workspaceOfRow (all : list Database.t) (tables : list Table.t)
    (ws : WorkspaceRow.t) : Workspace.t :=
  let databasesInWorkspace :=
    List.filter
      (fun db => strict_eq (Database.workspace_id db) (Num (WorkspaceRow.id ws)))
      all in
  let tablesInWorkspace :=
    List.filter (inWorkspace (Num (WorkspaceRow.id ws))) tables in
  {| Workspace.id := WorkspaceRow.id ws;
     Workspace.name := WorkspaceRow.name ws;
     Workspace.databaseCount := len databasesInWorkspace;
     Workspace.tableCount := len tablesInWorkspace |}.

Definition uniqueWorkspaceIds (tables : list Table.t) : NumSet :=
  fold_left
    (fun ids table =>
       if truthy (Table.workspace_id table)
       then Set_add ids (Table.workspace_id table) else ids)
    tables [].

(** The fallback path of [allWorkspaces]: the entry made for [wsId]. *)
Definition derivedWorkspace (tables : list Table.t) (wsId : Z) : Workspace.t :=
  let sampleTable := List.find (inWorkspace (Num wsId)) tables in
  let databaseIds :=
    fold_left
      (fun ids table =>
         if inWorkspace (Num wsId) table && truthy (Table.database_id table)
         then Set_add ids (Table.database_id table) else ids)
      tables [] in
  let tableCount := len (List.filter (inWorkspace (Num wsId)) tables) in
  {| Workspace.id := wsId;
     Workspace.name :=
       or_else (from_option Table.workspace_name "" sampleTable)
               ("Workspace " ++ toString wsId);
     Workspace.databaseCount := len databaseIds;
     Workspace.tableCount := tableCount |}.

Definition byWorkspaceName (a b : Workspace.t) : Z :=
  localeCompare (Workspace.name a) (Workspace.name b).

Definition allWorkspaces (erdData : option ERDData) : list Workspace.t :=
  match erdData with
  | None => []
  | Some data =>
      match workspaces data with
      | Some (ws :: wss) =>
          map (workspaceOfRow (allDatabases erdData) (tables data)) (ws :: wss)
      | _ =>
          if (length (tables data) =? 0)%nat then []
          else sort byWorkspaceName
                 (map (derivedWorkspace (tables data))
                      (uniqueWorkspaceIds (tables data)))
      end
  end.

Definition filteredDatabases (erdData : option ERDData) (st : FilterState)
  : list Database.t :=
  let all := allDatabases erdData in
  if (length all =? 0)%nat then []
  else if String.eqb (selectedWorkspace st) "all" then all
  else
    let workspaceId := Number_of_string (selectedWorkspace st) in
    List.filter (fun db => strict_eq (Database.workspace_id db) workspaceId) all.

Definition filteredTables (erdData : option ERDData) (st : FilterState)
  : list Table.t :=
  match erdData with
  | None => []
  | Some data => filterTables (tables data) st
  end.

Definition databasesWithCorrectCounts (erdData : option ERDData)
    (st : FilterState) : list Database.t :=
  match erdData with
  | None => []
  | Some data =>
      map (fun db =>
             let tableCount :=
               len (List.filter (inDatabase (Num (Database.id db))) (tables data)) in
             Database.with_counts db tableCount (tableCount >? 0))
          (filteredDatabases erdData st)
  end.

(** The summary line under the selectors: the name shown after
    [in workspace] and after [from database], when a selection is made. *)
Definition workspaceSummary (erdData : option ERDData) (st : FilterState)
  : option string :=
  if negb (String.eqb (selectedWorkspace st) "all") then
    Some (or_else
            (from_option Workspace.name ""
               (List.find
                  (fun w => String.eqb (toString (Workspace.id w))
                                       (selectedWorkspace st))
                  (allWorkspaces erdData)))
            (selectedWorkspace st))
  else None.

Definition databaseSummary (erdData : option ERDData) (st : FilterState)
  : option string :=
  if negb (String.eqb (selectedDatabase st) "all") then
    Some (or_else
            (from_option Database.name ""
               (List.find
                  (fun d => String.eqb (toString (Database.id d))
                                       (selectedDatabase st))
                  (allDatabases erdData)))
            (selectedDatabase st))
  else None.

(** The values that the two [<select>] elements can send: ['all'] or the
    [value] of an option they render. *)
Definition workspaceOptions (erdData : option ERDData) : list string :=
  "all" :: map (fun ws => toString (Workspace.id ws)) (allWorkspaces erdData).

Definition databaseOptions (erdData : option ERDData) (st : FilterState)
  : list string :=
  "all" :: map (fun db => toString (Database.id db))
               (databasesWithCorrectCounts erdData st).

(** The selectors exist once the data is there; the workspace selector
    sends one of its options, the database selector one of its own while
    it is enabled. *)
Inductive selects (data : ERDData) : FilterState -> Event -> FilterState -> Prop :=
| selects_workspace st value :
    In value (workspaceOptions (Some data)) ->
    selects data st (WorkspaceChange value) (handleWorkspaceChange value st)
| selects_database st value :
    databaseSelectDisabled st = false ->
    In value (databaseOptions (Some data) st) ->
    selects data st (DatabaseChange value) (handleDatabaseChange value st).

Inductive selectable (data : ERDData) : FilterState -> Prop :=
| selectable_initial : selectable data initialState
| selectable_step st e st' :
    selectable data st -> selects data st e st' -> selectable data st'.

End WithHost.

(** The three state cells of the fetch and the effect that fills them. *)
Record PageState : Type := {
  erdData : option ERDData;
  error : option string;
  isLoading : bool
}.

Definition initialPage : PageState :=
  {| erdData := None; error := None; isLoading := true |}.

Definition setErdData (v : option ERDData) (page : PageState) : PageState :=
  {| erdData := v; error := error page; isLoading := isLoading page |}.

Definition setError (v : option string) (page : PageState) : PageState :=
  {| erdData := erdData page; error := v; isLoading := isLoading page |}.

Definition setIsLoading (v : bool) (page : PageState) : PageState :=
  {| erdData := erdData page; error := error page; isLoading := v |}.

(** [e instanceof Error ? e.message : String(e)]. *)
Definition describe (e : Fetch.Thrown) : string :=
  match e with
  | Fetch.ErrorObject message => message
  | Fetch.OtherValue text => text
  end.

(** [fetchERDData]: the [try] block either finishes with the state it has
    written or throws; [catch] and [finally] follow. *)
Definition fetchERDData (outcome : Fetch.Outcome ERDData) (page : PageState)
  : PageState :=
  let page := setIsLoading true page in
  let attempt : PageState + Fetch.Thrown :=
    match outcome with
    | Fetch.Rejected e => inr e
    | Fetch.Resolved response =>
        if negb (Fetch.ok response) then
          inr (Fetch.ErrorObject
                 ("HTTP error! status: " ++ toString (Fetch.status response)))
        else
          match Fetch.json response with
          | inl data => inl (setError None (setErdData (Some data) page))
          | inr e => inr e
          end
    end in
  let page :=
    match attempt with
    | inl written => written
    | inr e =>
        setErdData None
          (setError (Some ("Error fetching ERD data: " ++ describe e)) page)
    end in
  setIsLoading false page.

End Home.

(** ** Graph derivation shared by the two diagram components

    [ERDDiagramInner] and the earlier [ERDDiagram] build their nodes and
    edges with the same callbacks. *)

Section Derivation.
Context `{Host}.

Definition nodeField (table : Table.t) (field : Field.t) : NodeField.t :=
  {| NodeField.id := Field.id field;
     NodeField.name := Field.name field;
     NodeField.type := Field.type field;
     NodeField.link_row_table_id := Field.link_row_table_id field;
     NodeField.isPrimary :=
       includes (toLowerCase (Field.name field)) "id"
       && String.eqb (toLowerCase (Field.name field))
                     (toLowerCase (Table.name table) ++ "_id");
     NodeField.isForeign :=
       String.eqb (Field.type field) "link_row"
       || match Field.link_row_table_id field with
          | Some _ => true
          | None => false
          end |}.

Definition tableNode (index : nat) (table : Table.t) : Node.t :=
  let row := Z.of_nat index / 3 in
  let col := Z.of_nat index mod 3 in
  {| Node.id := toString (Table.id table);
     Node.type := "tableNode";
     Node.x := col * 300 + 50;
     Node.y := row * 400 + 50;
     Node.label := Table.name table;
     Node.fields := map (nodeField table) (Table.fields table) |}.
End Derivation.

Definition relationshipEdge (index : nat) (rel : Relationship.t) : Edge.t :=
  {| Edge.id := "e" ++ toString (Z.of_nat index);
     Edge.source := toString (Relationship.source_table_id rel);
     Edge.target := toString (Relationship.target_table_id rel);
     Edge.label := Relationship.field_name rel;
     Edge.type := "smoothstep";
     Edge.animated := true |}.

(** ** [ERDDiagram]: the diagram component with its filter panel *)

Module ERDDiagram.

(** An element of the component's own [databases] list. *)
Module DatabaseOption.
Record t : Type := {
  id : Z;
  name : string;
  workspace_id : number;
  tableCount : Z
}.
End DatabaseOption.

Section WithHost.
Context `{Host}.

(** [workspaces]: every table overwrites the entry of its workspace. *)
Definition workspaceMap (tables : list Table.t) : NumMap WorkspaceRow.t :=
  fold_left
    (fun m table =>
       let workspace :=
         {| WorkspaceRow.id := Table.workspace_id table;
            WorkspaceRow.name := Table.workspace_name table |} in
       Map_set m (WorkspaceRow.id workspace) workspace)
    tables [].

Definition byName (a b : WorkspaceRow.t) : Z :=
  localeCompare (WorkspaceRow.name a) (WorkspaceRow.name b).

Definition workspaces (tables : list Table.t) : list WorkspaceRow.t :=
  sort byName (Map_values (workspaceMap tables)).

(** [databases]: only the first table of a database makes its entry. *)
Definition databaseMap (tables : list Table.t) : NumMap DatabaseOption.t :=
  fold_left
    (fun m table =>
       let dbId := Table.database_id table in
       if negb (Map_has m dbId) then
         Map_set m dbId
           {| DatabaseOption.id := dbId;
              DatabaseOption.name := Table.database_name table;
              DatabaseOption.workspace_id :=
                Number_of_number (Table.workspace_id table);
              DatabaseOption.tableCount :=
                len (List.filter (inDatabase (Num dbId)) tables) |}
       else m)
    tables [].

Definition byOptionName (a b : DatabaseOption.t) : Z :=
  localeCompare (DatabaseOption.name a) (DatabaseOption.name b).

Definition databases (tables : list Table.t) : list DatabaseOption.t :=
  sort byOptionName (Map_values (databaseMap tables)).

Definition filteredTables (tables : list Table.t) (st : FilterState)
  : list Table.t :=
  filterTables tables st.

(** [tableIds = new Set(filteredTables.map(table => table.id))]. *)
Definition tableIds (filteredTables : list Table.t) : gset Z :=
  list_to_set (map Table.id filteredTables).

Definition filteredRelationships (relationships : list Relationship.t)
    (filteredTables : list Table.t) : list Relationship.t :=
  let ids := tableIds filteredTables in
  List.filter
    (fun rel =>
       bool_decide (Relationship.source_table_id rel ∈ ids)
       && bool_decide (Relationship.target_table_id rel ∈ ids))
    relationships.

Definition initialNodes (filteredTables : list Table.t) : list Node.t :=
  imap tableNode filteredTables.

Definition initialEdges (filteredRelationships : list Relationship.t)
  : list Edge.t :=
  imap relationshipEdge filteredRelationships.

(** The [useEffect] that fills the two state cells of the diagram. *)
Definition derive (tables : list Table.t)
    (relationships : list Relationship.t) (st : FilterState)
  : list Node.t * list Edge.t :=
  let visible := filteredTables tables st in
  (initialNodes visible,
   initialEdges (filteredRelationships relationships visible)).

(** [filteredDatabases] of [WorkspaceAndDatabaseFilter]. *)
Definition panelDatabases (databases : list DatabaseOption.t)
    (selectedWorkspace : string) : list DatabaseOption.t :=
  if String.eqb selectedWorkspace "all" then databases
  else List.filter
         (fun db => strict_eq (DatabaseOption.workspace_id db)
                              (Number_of_string selectedWorkspace))
         databases.

End WithHost.
End ERDDiagram.

(** ** [ERDDiagramV1]: the earlier diagram component, without filters *)

Module ERDDiagramV1.
Section WithHost.
Context `{Host}.

Definition nodes (tables : list Table.t) : list Node.t :=
  imap tableNode tables.

Definition edges (relationships : list Relationship.t) : list Edge.t :=
  imap relationshipEdge relationships.

End WithHost.
End ERDDiagramV1.

(** ** [ERDPage]: the page of one application *)

Module ERDPage.

(** A table of [selectedApp.tables]; the edge derivation reads its [id]. *)
Module AppTable.
Record t : Type := {
  id : Z;
  name : string
}.
End AppTable.

Definition tableExists (appTables : list AppTable.t) (tableId : Z) : bool :=
  existsb (fun t => Z.eqb (AppTable.id t) tableId) appTables.

(** The relationships kept for the application: the [filter] half of
    the [flowEdges] chain. *)
Definition appRelationships (appTables : list AppTable.t)
    (relationships : list Relationship.t) : list Relationship.t :=
  List.filter
    (fun rel =>
       let sourceTableExists :=
         tableExists appTables (Relationship.source_table_id rel) in
       let targetTableExists :=
         tableExists appTables (Relationship.target_table_id rel) in
       sourceTableExists && targetTableExists)
    relationships.

Definition flowEdge (index : nat) (rel : Relationship.t) : Edge.t :=
  {| Edge.id := "e-" ++ toString (Z.of_nat index);
     Edge.source := toString (Relationship.source_table_id rel);
     Edge.target := toString (Relationship.target_table_id rel);
     Edge.label := Relationship.field_name rel;
     Edge.type := "default";
     Edge.animated := true |}.

Definition flowEdges (appTables : list AppTable.t)
    (relationships : list Relationship.t) : list Edge.t :=
  imap flowEdge (appRelationships appTables relationships).

(** The payload of this page is untyped. A field that the page walks
    with array methods after it has set the title is either a list of
    entries of the shape the walk reads, or anything else, on which the
    walk throws. *)
Inductive Walked (A : Type) : Type :=
| Entries (items : list A)
| Throws (thrown : Fetch.Thrown).

Arguments Entries {A} _.
Arguments Throws {A} _.

(** An application of the payload and the payload itself. *)
Module Application.
Record t : Type := {
  id : Z;
  name : string;
  tables : Walked AppTable.t
}.
End Application.

Record Payload : Type := {
  applications : list Application.t;
  relationships : Walked Relationship.t
}.

(** A node of this page: it carries its table whole. *)
Module FlowNode.
Record t : Type := {
  id : string;
  type : string;
  x : Z;
  y : Z;
  table : AppTable.t
}.
End FlowNode.

Definition flowNodes (appTables : list AppTable.t) : list FlowNode.t :=
  imap
    (fun index table =>
       {| FlowNode.id := toString (AppTable.id table);
          FlowNode.type := "table";
          FlowNode.x := 200 + (Z.of_nat index mod 3) * 300;
          FlowNode.y := 100 + (Z.of_nat index / 3) * 300;
          FlowNode.table := table |})
    appTables.

Record PageState : Type := {
  loading : bool;
  error : option string;
  appName : string;
  nodes : list FlowNode.t;
  edges : list Edge.t
}.

Definition initialPage : PageState :=
  {| loading := true; error := None; appName := ""; nodes := []; edges := [] |}.

Definition setLoading (v : bool) (page : PageState) : PageState :=
  {| loading := v; error := error page; appName := appName page;
     nodes := nodes page; edges := edges page |}.

Definition setError (v : option string) (page : PageState) : PageState :=
  {| loading := loading page; error := v; appName := appName page;
     nodes := nodes page; edges := edges page |}.

Definition setAppName (v : string) (page : PageState) : PageState :=
  {| loading := loading page; error := error page; appName := v;
     nodes := nodes page; edges := edges page |}.

Definition setNodes (v : list FlowNode.t) (page : PageState) : PageState :=
  {| loading := loading page; error := error page; appName := appName page;
     nodes := v; edges := edges page |}.

Definition setEdges (v : list Edge.t) (page : PageState) : PageState :=
  {| loading := loading page; error := error page; appName := appName page;
     nodes := nodes page; edges := v |}.

(** [data.applications.find(app => app.id.toString() === appId)]. *)
Definition findApplication (data : Payload) (appId : string)
  : option Application.t :=
  List.find (fun app => String.eqb (toString (Application.id app)) appId)
            (applications data).

(** [fetchERDData] of this page: the [try] block leaves the state it has
    written so far and, when it did not finish, what it threw; [catch] and
    [finally] follow. The title is written before nodes and edges are
    built. *)
Definition fetchERDData (appId : string) (outcome : Fetch.Outcome Payload)
    (page : PageState) : PageState :=
  let page := setError None (setLoading true page) in
  let attempt : PageState * option Fetch.Thrown :=
    match outcome with
    | Fetch.Rejected e => (page, Some e)
    | Fetch.Resolved response =>
        if negb (Fetch.ok response) then
          (page,
           Some (Fetch.ErrorObject
                   ("Error fetching ERD data: "
                    ++ toString (Fetch.status response))))
        else
          match Fetch.json response with
          | inr e => (page, Some e)
          | inl data =>
              match findApplication data appId with
              | None =>
                  (page,
                   Some (Fetch.ErrorObject
                           ("Application with ID " ++ appId ++ " not found")))
              | Some selectedApp =>
                  let page := setAppName (Application.name selectedApp) page in
                  match Application.tables selectedApp with
                  | Throws e => (page, Some e)
                  | Entries appTables =>
                      match relationships data with
                      | Throws e => (page, Some e)
                      | Entries rels =>
                          (setEdges (flowEdges appTables rels)
                             (setNodes (flowNodes appTables) page),
                           None)
                      end
                  end
              end
          end
    end in
  let page :=
    match snd attempt with
    | None => fst attempt
    | Some (Fetch.ErrorObject message) =>
        setError (Some message) (fst attempt)
    | Some (Fetch.OtherValue _) =>
        setError (Some "An unknown error occurred") (fst attempt)
    end in
  setLoading false page.


End ERDPage.

(** ** Reference notions and sample payloads *)

(** The number of tables of a database, counted on the payload's
    [database_id] column. *)
Definition liveCount (tables : list Table.t) (dbId : Z) : Z :=
  Z.of_nat (count_occ Z.eq_dec (map Table.database_id tables) dbId).

(** The sum of a list of counts. *)
Definition total (counts : list Z) : Z := fold_right Z.add 0 counts.

(** The number of distinct values in a list of identifiers. *)
Definition distinctIds (ids : list Z) : nat :=
  size (list_to_set ids : gset Z).

(** The payload brings no usable [databases] (resp. [workspaces]) list:
    the list is absent or empty. *)
Definition lacksDatabases (data : ERDData) : bool :=
  match databases data with
  | Some (_ :: _) => false
  | _ => true
  end.

Definition lacksWorkspaces (data : ERDData) : bool :=
  match workspaces data with
  | Some (_ :: _) => false
  | _ => true
  end.

(** [x] is the first (resp. last) element of [l] that satisfies [P]. *)
Definition isFirst {A} (P : A -> Prop) (l : list A) (x : A) : Prop :=
  exists pre post, l = (pre ++ x :: post)%list /\ P x /\ Forall (fun y => ~ P y) pre.

Definition isLast {A} (P : A -> Prop) (l : list A) (x : A) : Prop :=
  exists pre post, l = (pre ++ x :: post)%list /\ P x /\ Forall (fun y => ~ P y) post.


Module Samples.

Definition table (id : Z) (name : string) (database_id : Z)
    (database_name : string) (workspace_id : Z) (workspace_name : string)
    (fields : list Field.t) : Table.t :=
  {| Table.id := id; Table.name := name;
     Table.database_id := database_id; Table.database_name := database_name;
     Table.workspace_id := workspace_id;
     Table.workspace_name := workspace_name;
     Table.fields := fields |}.

(** The two-table payload of the specification's scenario. *)
Definition users : Table.t :=
  table 1 "Users" 10 "" 100 ""
    [{| Field.id := 1; Field.name := "id"; Field.type := "number";
        Field.link_row_table_id := None |}].

Definition orders : Table.t :=
  table 2 "Orders" 10 "" 100 ""
    [{| Field.id := 2; Field.name := "user_id"; Field.type := "link_row";
        Field.link_row_table_id := Some 1 |}].

Definition userLink : Relationship.t :=
  {| Relationship.source_table_id := 2;
     Relationship.source_table_name := "Orders";
     Relationship.target_table_id := 1;
     Relationship.target_table_name := "Users";
     Relationship.field_id := 2;
     Relationship.field_name := "user_id" |}.

Definition scenario : ERDData :=
  {| tables := [users; orders]; relationships := [userLink];
     databases := None; workspaces := None |}.

(** An explicit database row that announces five tables, in a payload
    that has none. *)
Definition salesRow : DatabaseRow.t :=
  {| DatabaseRow.id := 1; DatabaseRow.name := "Sales";
     DatabaseRow.workspace_id := 100; DatabaseRow.workspace_name := "Main";
     DatabaseRow.has_tables := None; DatabaseRow.table_count := Some 5 |}.

Definition staleCount : ERDData :=
  {| tables := []; relationships := [];
     databases := Some [salesRow]; workspaces := None |}.

(** A payload whose only table has database id zero. *)
Definition zeroId : ERDData :=
  {| tables := [table 1 "Users" 0 "Main" 100 "Acme" []];
     relationships := []; databases := None; workspaces := None |}.


(** Workspace 5, then database 7, then back to all workspaces. *)
Definition backToAll : FilterState :=
  handleWorkspaceChange "all"
    (handleDatabaseChange "7" (handleWorkspaceChange "5" initialState)).

(** The options of workspace 100 and database 10. *)
Definition specific : FilterState :=
  {| selectedWorkspace := "100"; selectedDatabase := "10" |}.

(** A workspace that the scenario does not have. *)
Definition unmatched : FilterState :=
  {| selectedWorkspace := "200"; selectedDatabase := "all" |}.

Definition appTables : list ERDPage.AppTable.t :=
  [{| ERDPage.AppTable.id := 1; ERDPage.AppTable.name := "Users" |};
   {| ERDPage.AppTable.id := 2; ERDPage.AppTable.name := "Orders" |}].



(** Two tables of database 10 that lie in different workspaces. *)
Definition split : ERDData :=
  {| tables := [table 1 "Users" 10 "Main" 100 "Alpha" [];
                table 2 "Orders" 10 "Main" 200 "Beta" []];
     relationships := []; databases := None; workspaces := None |}.


End Samples.

(** * Properties *)

(** ** Host primitives *)

Section SortFacts.
Context {A : Type} (cmp : A -> A -> Z).

Lemma insert_sorted_perm (x : A) (l : list A) :
  Permutation (insert_sorted cmp x l) (x :: l).
Proof.
  induction l as [|y l IH]; simpl.
  - reflexivity.
  - destruct (cmp x y <? 0).
    + reflexivity.
    + rewrite IH. apply perm_swap.
Qed.

Lemma sort_from_perm (l acc : list A) :
  Permutation (fold_left (fun acc x => insert_sorted cmp x acc) l acc)
              (acc ++ l)%list.
Proof.
  revert acc. induction l as [|x l IH]; intros acc; simpl.
  - now rewrite app_nil_r.
  - rewrite IH, insert_sorted_perm.
    change (x :: acc) with ([x] ++ acc)%list.
    rewrite (Permutation_app_comm [x] acc), <- app_assoc. reflexivity.
Qed.

(** Whatever the comparator answers, sorting only reorders. *)
Lemma sort_perm (l : list A) : Permutation (sort cmp l) l.
Proof. unfold sort. now rewrite sort_from_perm. Qed.

Lemma sort_length (l : list A) : length (sort cmp l) = length l.
Proof. apply Permutation_length, sort_perm. Qed.

Lemma sort_In (l : list A) (x : A) : In x (sort cmp l) <-> In x l.
Proof.
  split; apply Permutation_in; [|symmetry]; apply sort_perm.
Qed.
End SortFacts.

Lemma strict_eq_Num (a : number) (z : Z) :
  strict_eq a (Num z) = true <-> a = Num z.
Proof.
  destruct a as [|x]; simpl; [easy|].
  rewrite Z.eqb_eq. split; congruence.
Qed.

Lemma strict_eq_Num_l (z : Z) (b : number) :
  strict_eq (Num z) b = true <-> b = Num z.
Proof.
  destruct b as [|y]; simpl; [easy|].
  rewrite Z.eqb_eq. split; congruence.
Qed.

Lemma inDatabase_Num (d : Z) (t : Table.t) :
  inDatabase (Num d) t = (Table.database_id t =? d).
Proof. reflexivity. Qed.


Lemma filter_filter_andb {A} (p q : A -> bool) (l : list A) :
  List.filter q (List.filter p l) = List.filter (fun x => p x && q x) l.
Proof.
  induction l as [|x l IH]; simpl; [reflexivity|].
  destruct (p x); simpl; [destruct (q x)|]; now rewrite IH.
Qed.

Lemma includes_cons (c : ascii) (s sub : string) :
  includes (String c s) sub
  = if String.prefix sub (String c s) then true else includes s sub.
Proof. reflexivity. Qed.

(** A string that ends in ["_id"] contains ["id"]. *)
Lemma includes_suffix_id (s : string) : includes (s ++ "_id") "id" = true.
Proof.
  induction s as [|c s IH].
  - reflexivity.
  - change (String c s ++ "_id") with (String c (s ++ "_id")).
    rewrite includes_cons.
    destruct (String.prefix "id" (String c (s ++ "_id"))); [reflexivity|exact IH].
Qed.

(** ** The cascading filter state *)

(** C1. The workspace handler stores the chosen workspace and resets the
    database selection to ["all"] from every state; in particular after
    a database was chosen, whatever workspace is chosen next. *)
Theorem handleWorkspaceChange_resets_database :
  (forall (st : FilterState) (w : string),
      handleWorkspaceChange w st
      = {| selectedWorkspace := w; selectedDatabase := "all" |})
  /\ (forall (st : FilterState) (d w2 : string),
         let st' := handleWorkspaceChange w2 (handleDatabaseChange d st) in
         selectedWorkspace st' = w2 /\ selectedDatabase st' = "all").
Proof.
  split.
  - intros st w. reflexivity.
  - intros st d w2. cbn. split; reflexivity.
Qed.

Lemma databaseSelectDisabled_iff (st : FilterState) :
  databaseSelectDisabled st = true <-> selectedWorkspace st = "all".
Proof. unfold databaseSelectDisabled. apply String.eqb_eq. Qed.

(** An enabled database selector means a specific workspace. *)
Ltac selector_enabled :=
  match goal with
  | Hd : databaseSelectDisabled _ = false |- _ =>
      apply not_true_iff_false in Hd; rewrite databaseSelectDisabled_iff in Hd
  end.

Lemma step_keeps_invariant (st st' : FilterState) (e : Event) :
  step st e st' ->
  (selectedWorkspace st = "all" -> selectedDatabase st = "all") ->
  selectedWorkspace st' = "all" -> selectedDatabase st' = "all".
Proof.
  intros Hstep Hinv Hall. inversion Hstep; subst; cbn in *.
  - reflexivity.
  - selector_enabled. contradiction.
Qed.

(** C10. In every state reachable from [('all', 'all')] through the two
    selectors: while the workspace selection is ["all"] the database
    selector is disabled and the database selection is ["all"]; and a change
    of the database selector can only happen under a specific workspace,
    which stays selected. *)
Theorem database_needs_specific_workspace (st : FilterState) :
  reachable st ->
  (selectedWorkspace st = "all" ->
   databaseSelectDisabled st = true /\ selectedDatabase st = "all")
  /\ (forall (value : string) (st' : FilterState),
         step st (DatabaseChange value) st' ->
         selectedWorkspace st <> "all" /\ selectedWorkspace st' <> "all"
         /\ selectedDatabase st' = value).
Proof.
  intros Hreach. split.
  - intros Hall. split; [now apply databaseSelectDisabled_iff|].
    revert Hall. induction Hreach as [|st0 e st1 _ IH Hstep].
    + reflexivity.
    + eapply step_keeps_invariant; eassumption.
  - intros value st' Hstep. inversion Hstep; subst; cbn.
    selector_enabled. repeat split; assumption.
Qed.

(** ** Relationship pruning and graph derivation *)

Lemma in_gset_existsb (x : Z) (l : list Z) :
  bool_decide (x ∈ (list_to_set l : gset Z)) = existsb (Z.eqb x) l.
Proof.
  destruct (existsb (Z.eqb x) l) eqn:E.
  - apply bool_decide_eq_true. rewrite elem_of_list_to_set, list_elem_of_In.
    apply existsb_exists in E as (y & Hy & Hxy).
    apply Z.eqb_eq in Hxy. now subst.
  - apply bool_decide_eq_false. rewrite elem_of_list_to_set, list_elem_of_In.
    intros Hin. apply not_true_iff_false in E. apply E.
    apply existsb_exists. exists x. split; [assumption|apply Z.eqb_refl].
Qed.

Lemma existsb_eqb_In (x : Z) (l : list Z) :
  existsb (Z.eqb x) l = true <-> In x l.
Proof.
  rewrite existsb_exists. split.
  - intros (y & Hy & Hxy). apply Z.eqb_eq in Hxy. now subst.
  - intros Hin. exists x. split; [assumption|apply Z.eqb_refl].
Qed.

Lemma tableExists_In (appTables : list ERDPage.AppTable.t) (x : Z) :
  ERDPage.tableExists appTables x = true
  <-> In x (map ERDPage.AppTable.id appTables).
Proof.
  unfold ERDPage.tableExists. rewrite existsb_exists, in_map_iff. split.
  - intros (t & Ht & Heq). apply Z.eqb_eq in Heq. now exists t.
  - intros (t & Heq & Ht). exists t. split; [assumption|now apply Z.eqb_eq].
Qed.

Section GraphClaims.
Context `{Host}.

(** C2. Whatever the filter state, [filteredRelationships] keeps, in
    payload order, exactly the relationships whose source and target ids
    both occur among the ids of the filtered tables; a relationship with a
    single visible endpoint is not in the result. The per-application
    page prunes its relationships by the same rule. *)
Theorem filteredRelationships_both_endpoints
    (relationships : list Relationship.t) (tables : list Table.t)
    (st : FilterState) :
  let visible := ERDDiagram.filteredTables tables st in
  let ids := map Table.id visible in
  ERDDiagram.filteredRelationships relationships visible
  = List.filter
      (fun rel =>
         existsb (Z.eqb (Relationship.source_table_id rel)) ids
         && existsb (Z.eqb (Relationship.target_table_id rel)) ids)
      relationships
  /\ (forall rel : Relationship.t,
         In rel (ERDDiagram.filteredRelationships relationships visible)
         <-> In rel relationships
             /\ In (Relationship.source_table_id rel) ids
             /\ In (Relationship.target_table_id rel) ids)
  /\ (forall (appTables : list ERDPage.AppTable.t) (rel : Relationship.t),
         In rel (ERDPage.appRelationships appTables relationships)
         <-> In rel relationships
             /\ In (Relationship.source_table_id rel)
                   (map ERDPage.AppTable.id appTables)
             /\ In (Relationship.target_table_id rel)
                   (map ERDPage.AppTable.id appTables)).
Proof.
  intros visible ids.
  assert (Heq : ERDDiagram.filteredRelationships relationships visible
                = List.filter
                    (fun rel =>
                       existsb (Z.eqb (Relationship.source_table_id rel)) ids
                       && existsb (Z.eqb (Relationship.target_table_id rel)) ids)
                    relationships).
  { unfold ERDDiagram.filteredRelationships, ERDDiagram.tableIds.
    apply List.filter_ext. intros rel. now rewrite !in_gset_existsb. }
  split; [exact Heq|split].
  - intros rel. rewrite Heq, filter_In, andb_true_iff, !existsb_eqb_In.
    reflexivity.
  - intros appTables rel. unfold ERDPage.appRelationships.
    rewrite filter_In. cbn zeta. rewrite andb_true_iff, !tableExists_In.
    reflexivity.
Qed.

(** C8. A node field is marked primary exactly when its lower-cased name
    contains ["id"] and equals the lower-cased table name followed by
    ["_id"]; the second condition alone already decides it. Both diagram
    components mark the fields of every table this way. *)
Theorem isPrimary_iff (table : Table.t) (field : Field.t) :
  (NodeField.isPrimary (nodeField table field) = true
   <-> includes (toLowerCase (Field.name field)) "id" = true
       /\ toLowerCase (Field.name field)
          = toLowerCase (Table.name table) ++ "_id")
  /\ (NodeField.isPrimary (nodeField table field) = true
      <-> toLowerCase (Field.name field)
          = toLowerCase (Table.name table) ++ "_id")
  /\ (forall tables : list Table.t,
         map Node.fields (ERDDiagram.initialNodes tables)
         = map (fun t => map (nodeField t) (Table.fields t)) tables
         /\ ERDDiagramV1.nodes tables = ERDDiagram.initialNodes tables).
Proof.
  assert (Hfirst : NodeField.isPrimary (nodeField table field) = true
                   <-> includes (toLowerCase (Field.name field)) "id" = true
                       /\ toLowerCase (Field.name field)
                          = toLowerCase (Table.name table) ++ "_id").
  { cbn. rewrite andb_true_iff, String.eqb_eq. reflexivity. }
  split; [exact Hfirst|split].
  - rewrite Hfirst. split; [tauto|].
    intros Heq. split; [|exact Heq].
    rewrite Heq. apply includes_suffix_id.
  - intros tables. split; [|reflexivity].
    unfold ERDDiagram.initialNodes.
    assert (Hgen : forall (f : nat -> nat) (l : list Table.t),
               map Node.fields (imap (fun i => tableNode (f i)) l)
               = map (fun t => map (nodeField t) (Table.fields t)) l).
    { intros f l. revert f. induction l as [|t l IH]; intros f; cbn.
      - reflexivity.
      - f_equal. apply (IH (fun i => f (S i))). }
    apply (Hgen (fun i => i)).
Qed.

End GraphClaims.

(** On the evaluation host: [USERS_ID] is the primary key of [Users], the
    plain [id] and the link [user_id] are not. *)
Example isPrimary_samples :
  map (fun name =>
         NodeField.isPrimary
           (nodeField Samples.users
              {| Field.id := 1; Field.name := name; Field.type := "number";
                 Field.link_row_table_id := None |}))
      ["USERS_ID"; "users_id"; "id"; "user_id"]
  = [true; true; false; false].
Proof. reflexivity. Qed.

(** The scenario of the specification: one node per table on the grid and
    one edge, labelled ["user_id"], from node ["2"] to node ["1"]. *)
Example scenario_diagram :
  let (nodes, edges) :=
    ERDDiagram.derive (tables Samples.scenario)
      (relationships Samples.scenario) initialState in
  map (fun n => (Node.id n, Node.x n, Node.y n)) nodes
  = [("1", 50, 50); ("2", 350, 50)]
  /\ map (fun e => (Edge.id e, Edge.source e, Edge.target e, Edge.label e)) edges
     = [("e0", "2", "1", "user_id")].
Proof. split; reflexivity. Qed.

Lemma lookup_imap_eq {A B} (f : nat -> A -> B) (l : list A) (index : nat) :
  imap f l !! index = f index <$> l !! index.
Proof. apply list_lookup_imap. Qed.

(** C7 (amended). Both diagram components emit one edge per relationship,
    at the relationship's position, labelled with its field name, directed
    from its source table id to its target table id and identified by
    ["e"] followed by the position. The per-application page does the same
    over the relationships it keeps, but identifies the edge by ["e-"]
    followed by the position. *)
Theorem edges_follow_relationships (relationships : list Relationship.t) :
  length (ERDDiagram.initialEdges relationships) = length relationships
  /\ (forall index : nat,
         ERDDiagram.initialEdges relationships !! index
         = (fun rel =>
              {| Edge.id := "e" ++ toString (Z.of_nat index);
                 Edge.source := toString (Relationship.source_table_id rel);
                 Edge.target := toString (Relationship.target_table_id rel);
                 Edge.label := Relationship.field_name rel;
                 Edge.type := "smoothstep";
                 Edge.animated := true |})
           <$> relationships !! index)
  /\ ERDDiagramV1.edges relationships = ERDDiagram.initialEdges relationships
  /\ (forall appTables : list ERDPage.AppTable.t,
         let kept := ERDPage.appRelationships appTables relationships in
         length (ERDPage.flowEdges appTables relationships) = length kept
         /\ forall index : nat,
             ERDPage.flowEdges appTables relationships !! index
             = (fun rel =>
                  {| Edge.id := "e-" ++ toString (Z.of_nat index);
                     Edge.source := toString (Relationship.source_table_id rel);
                     Edge.target := toString (Relationship.target_table_id rel);
                     Edge.label := Relationship.field_name rel;
                     Edge.type := "default";
                     Edge.animated := true |})
               <$> kept !! index).
Proof.
  repeat split.
  - apply length_imap.
  - intros index. apply lookup_imap_eq.
  - apply length_imap.
  - intros index. apply lookup_imap_eq.
Qed.

(** C7, as stated, fails on the per-application page: the edge of the
    scenario's relationship is identified by ["e-0"], not by ["e0"]. *)
Lemma flowEdges_identity_has_dash :
  map Edge.id (ERDPage.flowEdges Samples.appTables [Samples.userLink]) = ["e-0"]
  /\ map Edge.id (ERDPage.flowEdges Samples.appTables [Samples.userLink])
     <> ["e" ++ toString 0].
Proof. split; [reflexivity|discriminate]. Qed.

(** ** Filter derivations *)

Lemma len_filter_inDatabase (tables : list Table.t) (d : Z) :
  len (List.filter (inDatabase (Num d)) tables) = liveCount tables d.
Proof.
  unfold len, liveCount. f_equal.
  induction tables as [|t tables IH]; simpl; [reflexivity|].
  rewrite inDatabase_Num.
  destruct (Z.eq_dec (Table.database_id t) d) as [Heq|Hne].
  - apply Z.eqb_eq in Heq. rewrite Heq. simpl. now rewrite IH.
  - apply Z.eqb_neq in Hne. now rewrite Hne.
Qed.


Section FilterClaims.
Context `{Host}.

Lemma allDatabases_explicit (data : ERDData) (row : DatabaseRow.t)
    (rows : list DatabaseRow.t) :
  databases data = Some (row :: rows) ->
  Home.allDatabases (Some data)
  = map (Home.databaseOfRow (tables data)) (row :: rows).
Proof. intros Hdbs. unfold Home.allDatabases. now rewrite Hdbs. Qed.

Lemma filteredDatabases_all (erdData : option ERDData) (st : FilterState) :
  selectedWorkspace st = "all" ->
  Home.filteredDatabases erdData st = Home.allDatabases erdData.
Proof.
  intros Hall. unfold Home.filteredDatabases. rewrite Hall. cbn.
  now destruct (Home.allDatabases erdData).
Qed.

Lemma filteredDatabases_specific (erdData : option ERDData)
    (st : FilterState) :
  String.eqb (selectedWorkspace st) "all" = false ->
  Home.filteredDatabases erdData st
  = List.filter
      (fun db => strict_eq (Database.workspace_id db)
                           (Number_of_string (selectedWorkspace st)))
      (Home.allDatabases erdData).
Proof.
  intros Hsel. unfold Home.filteredDatabases. rewrite Hsel.
  now destruct (Home.allDatabases erdData).
Qed.

(** C3 (amended). With an explicit non-empty [databases] list and the
    workspace selection ["all"], [filteredDatabases] returns one entry
    per payload row, in payload order, with the row's id and name; its
    [tableCount] is the row's [table_count] when the row has one and the
    live count of the database's tables otherwise. The list recomputed
    for the selector, [databasesWithCorrectCounts], keeps ids and names
    and always carries the live count. *)
Theorem explicit_databases_under_all (data : ERDData) (row : DatabaseRow.t)
    (rows : list DatabaseRow.t) (st : FilterState) :
  databases data = Some (row :: rows) ->
  selectedWorkspace st = "all" ->
  let listed := row :: rows in
  let result := Home.filteredDatabases (Some data) st in
  let recounted := Home.databasesWithCorrectCounts (Some data) st in
  length result = length listed
  /\ map Database.id result = map DatabaseRow.id listed
  /\ map Database.name result = map DatabaseRow.name listed
  /\ map Database.tableCount result
     = map (fun r => match DatabaseRow.table_count r with
                     | Some announced => announced
                     | None => liveCount (tables data) (DatabaseRow.id r)
                     end) listed
  /\ map Database.id recounted = map DatabaseRow.id listed
  /\ map Database.name recounted = map DatabaseRow.name listed
  /\ map Database.tableCount recounted
     = map (fun r => liveCount (tables data) (DatabaseRow.id r)) listed.
Proof.
  intros Hdbs Hall listed result recounted.
  subst result recounted. unfold Home.databasesWithCorrectCounts.
  rewrite (filteredDatabases_all _ _ Hall), (allDatabases_explicit _ _ _ Hdbs).
  fold listed. rewrite length_map, !map_map. cbn [Database.id Database.name
    Database.tableCount Database.with_counts Home.databaseOfRow].
  repeat split.
  - apply map_ext. intros r. destruct (DatabaseRow.table_count r);
      [reflexivity|apply len_filter_inDatabase].
  - apply map_ext. intros r. apply len_filter_inDatabase.
Qed.

Lemma filterTables_specific (tables : list Table.t) (ws db : string) :
  String.eqb ws "all" = false ->
  String.eqb db "all" = false ->
  filterTables tables {| selectedWorkspace := ws; selectedDatabase := db |}
  = List.filter
      (fun t => inWorkspace (Number_of_string ws) t
                && inDatabase (Number_of_string db) t)
      tables.
Proof.
  intros Hws Hdb. unfold filterTables. cbn. rewrite Hws, Hdb. cbn.
  apply filter_filter_andb.
Qed.

(** C4. A selection sent as text matches the entities whose identifier
    is the number that the text denotes: when [Number] reads the
    workspace selection as [w] and the database selection as [d], the
    table filter keeps exactly the tables of workspace [w] and database
    [d], and both database filters keep exactly the databases whose
    workspace is [w]. *)
Theorem text_selection_matches_numeric_id (data : ERDData)
    (ws db : string) (w d : Z) :
  String.eqb ws "all" = false ->
  String.eqb db "all" = false ->
  Number_of_string ws = Num w ->
  Number_of_string db = Num d ->
  Home.filteredTables (Some data)
    {| selectedWorkspace := ws; selectedDatabase := db |}
  = List.filter
      (fun t => (Table.workspace_id t =? w) && (Table.database_id t =? d))
      (tables data)
  /\ Home.filteredTables (Some data)
       {| selectedWorkspace := ws; selectedDatabase := "all" |}
     = List.filter (fun t => Table.workspace_id t =? w) (tables data)
  /\ (forall (selection : string) (entry : Database.t),
         In entry (Home.filteredDatabases (Some data)
                     {| selectedWorkspace := ws;
                        selectedDatabase := selection |})
         <-> In entry (Home.allDatabases (Some data))
             /\ Database.workspace_id entry = Num w)
  /\ (forall (options : list ERDDiagram.DatabaseOption.t)
             (entry : ERDDiagram.DatabaseOption.t),
         In entry (ERDDiagram.panelDatabases options ws)
         <-> In entry options
             /\ ERDDiagram.DatabaseOption.workspace_id entry = Num w)
  /\ (forall st : FilterState,
         ERDDiagram.filteredTables (tables data) st
         = Home.filteredTables (Some data) st).
Proof.
  intros Hws Hdb Hw Hd.
  split; [|split; [|split; [|split]]].
  - unfold Home.filteredTables.
    rewrite (filterTables_specific _ _ _ Hws Hdb), Hw, Hd. reflexivity.
  - unfold Home.filteredTables, filterTables. cbn. rewrite Hws, Hw. reflexivity.
  - intros selection entry.
    rewrite filteredDatabases_specific by exact Hws. cbn.
    rewrite Hw, filter_In, strict_eq_Num. reflexivity.
  - intros options entry. unfold ERDDiagram.panelDatabases.
    rewrite Hws, Hw, filter_In, strict_eq_Num. reflexivity.
  - reflexivity.
Qed.

End FilterClaims.

Section EmptyResults.
Context `{Host}.







End EmptyResults.

(** ** Sets and maps of the host, first and last occurrences *)

Lemma Set_has_elem_of (s : NumSet) (x : Z) : Set_has s x = true <-> x ∈ s.
Proof. unfold Set_has. now rewrite existsb_eqb_In, list_elem_of_In. Qed.

Lemma elem_of_Set_add (s : NumSet) (y x : Z) :
  x ∈ Set_add s y <-> x ∈ s \/ x = y.
Proof.
  unfold Set_add. destruct (Set_has s y) eqn:Hhas.
  - apply Set_has_elem_of in Hhas. split; [now left|].
    intros [Hin| ->]; assumption.
  - rewrite elem_of_app, list_elem_of_singleton. reflexivity.
Qed.

Lemma NoDup_Set_add (s : NumSet) (y : Z) : NoDup s -> NoDup (Set_add s y).
Proof.
  intros Hs. unfold Set_add. destruct (Set_has s y) eqn:Hhas; [assumption|].
  apply NoDup_app. split; [assumption|split; [|apply NoDup_singleton]].
  intros x Hx Hxy. apply list_elem_of_singleton in Hxy. subst x.
  apply Set_has_elem_of in Hx. congruence.
Qed.

(** The loop that fills [uniqueDatabaseIds] and [uniqueWorkspaceIds]. *)
Lemma unique_ids_spec (key : Table.t -> Z) (tables : list Table.t) :
  let ids :=
    fold_left
      (fun ids table =>
         if truthy (key table) then Set_add ids (key table) else ids)
      tables [] in
  NoDup ids
  /\ forall x : Z, x ∈ ids <-> x ∈ List.filter truthy (map key tables).
Proof.
  induction tables as [|t tables IH] using rev_ind; cbn zeta.
  - split; [constructor|reflexivity].
  - cbn zeta in IH. destruct IH as [Hnd Hel].
    rewrite fold_left_app, List.map_app, List.filter_app. cbn [fold_left map List.filter].
    destruct (truthy (key t)).
    + split; [now apply NoDup_Set_add|].
      intros x. rewrite elem_of_Set_add, elem_of_app, list_elem_of_singleton, Hel.
      reflexivity.
    + split; [assumption|].
      intros x. rewrite app_nil_r. apply Hel.
Qed.

Lemma length_distinct (ids l : list Z) :
  NoDup ids -> (forall x : Z, x ∈ ids <-> x ∈ l) ->
  length ids = distinctIds l.
Proof.
  intros Hnd Hel. unfold distinctIds.
  rewrite <- (size_list_to_set (C:=gset Z) ids Hnd). f_equal.
  apply set_eq. intros x. rewrite !elem_of_list_to_set. apply Hel.
Qed.

Lemma Map_has_elem_of {V} (m : NumMap V) (k : Z) :
  Map_has m k = true <-> k ∈ map fst m.
Proof.
  unfold Map_has. rewrite list_elem_of_In, existsb_exists, in_map_iff. split.
  - intros (kv & Hin & Heq). apply Z.eqb_eq in Heq. now exists kv.
  - intros (kv & Heq & Hin). exists kv. split; [assumption|now apply Z.eqb_eq].
Qed.

Lemma Map_has_cons {V} (m : NumMap V) (k' : Z) (v' : V) (k : Z) :
  Map_has ((k', v') :: m) k = (k' =? k) || Map_has m k.
Proof. reflexivity. Qed.

Lemma Map_set_fresh {V} (m : NumMap V) (k : Z) (v : V) :
  Map_has m k = false -> Map_set m k v = (m ++ [(k, v)])%list.
Proof.
  induction m as [|[k' v'] m IH]; cbn; intros Hfresh; [reflexivity|].
  apply orb_false_iff in Hfresh as [Hk Hm]. cbn in Hk. rewrite Hk.
  now rewrite (IH Hm).
Qed.

Lemma Map_set_keys {V} (m : NumMap V) (k : Z) (v : V) :
  map fst (Map_set m k v)
  = if Map_has m k then map fst m else (map fst m ++ [k])%list.
Proof.
  induction m as [|[k' v'] m IH]; [reflexivity|].
  cbn [Map_set]. rewrite Map_has_cons.
  destruct (Z.eqb k' k); cbn [map fst orb]; [reflexivity|].
  rewrite IH. now destruct (Map_has m k).
Qed.

Lemma Map_set_In {V} (m : NumMap V) (k : Z) (v : V) (k' : Z) (v' : V) :
  NoDup (map fst m) ->
  In (k', v') (Map_set m k v) ->
  (k' = k /\ v' = v) \/ (k' <> k /\ In (k', v') m).
Proof.
  induction m as [|[k0 v0] m IH]; cbn; intros Hnd Hin.
  - destruct Hin as [[= <- <-]|[]]. now left.
  - apply NoDup_cons in Hnd as [Hfresh Hnd].
    destruct (Z.eqb_spec k0 k) as [->|Hne]; cbn in Hin.
    + destruct Hin as [[= <- <-]|Hin]; [now left|].
      right. split; [|now right].
      intros ->. apply Hfresh, list_elem_of_In, in_map_iff.
      now exists (k, v').
    + destruct Hin as [[= <- <-]|Hin].
      * right. split; [assumption|now left].
      * destruct (IH Hnd Hin) as [Hnew|[Hk Hold]]; [now left|].
        right. split; [assumption|now right].
Qed.

Lemma NoDup_Map_set_keys {V} (m : NumMap V) (k : Z) (v : V) :
  NoDup (map fst m) -> NoDup (map fst (Map_set m k v)).
Proof.
  intros Hnd. rewrite Map_set_keys. destruct (Map_has m k) eqn:Hhas; [assumption|].
  apply NoDup_app. split; [assumption|split; [|apply NoDup_singleton]].
  intros x Hx Hxk. apply list_elem_of_singleton in Hxk. subst x.
  apply Map_has_elem_of in Hx. congruence.
Qed.

Lemma elem_of_Map_set_keys {V} (m : NumMap V) (k : Z) (v : V) (x : Z) :
  x ∈ map fst (Map_set m k v) <-> x ∈ map fst m \/ x = k.
Proof.
  rewrite Map_set_keys. destruct (Map_has m k) eqn:Hhas.
  - apply Map_has_elem_of in Hhas. split; [now left|].
    intros [Hin| ->]; assumption.
  - rewrite elem_of_app, list_elem_of_singleton. reflexivity.
Qed.

Lemma isFirst_snoc {A} (P : A -> Prop) (l : list A) (x y : A) :
  isFirst P l x -> isFirst P (l ++ [y]) x.
Proof.
  intros (pre & post & -> & Hx & Hpre).
  exists pre, (post ++ [y])%list. rewrite <- app_assoc. now repeat split.
Qed.

Lemma isFirst_new {A} (P : A -> Prop) (l : list A) (y : A) :
  P y -> Forall (fun z => ~ P z) l -> isFirst P (l ++ [y]) y.
Proof. intros Hy Hl. exists l, []. now repeat split. Qed.

Lemma isLast_snoc {A} (P : A -> Prop) (l : list A) (x y : A) :
  ~ P y -> isLast P l x -> isLast P (l ++ [y]) x.
Proof.
  intros Hy (pre & post & -> & Hx & Hpost).
  exists pre, (post ++ [y])%list. rewrite <- app_assoc.
  repeat split; [assumption|].
  apply Forall_app. split; [assumption|]. now constructor.
Qed.

Lemma isLast_new {A} (P : A -> Prop) (l : list A) (y : A) :
  P y -> isLast P (l ++ [y]) y.
Proof. intros Hy. exists l, []. repeat split; [assumption|constructor]. Qed.




(** A map filled with [if (!m.has(key)) m.set(key, value)]: one entry per
    key, made from the first table that has the key. *)
Lemma first_wins_fold {V} (key : Table.t -> Z) (mk : Table.t -> V)
    (l : list Table.t) :
  let m :=
    fold_left
      (fun (m : NumMap V) table =>
         if negb (Map_has m (key table))
         then Map_set m (key table) (mk table) else m)
      l [] in
  NoDup (map fst m)
  /\ (forall x : Z, x ∈ map fst m <-> x ∈ map key l)
  /\ (forall (k : Z) (v : V),
         In (k, v) m ->
         exists t, isFirst (fun u => key u = k) l t /\ v = mk t).
Proof.
  induction l as [|t l IH] using rev_ind; cbn zeta.
  - split; [constructor|split; [reflexivity|intros k v []]].
  - cbn zeta in IH. destruct IH as (Hnd & Hkeys & Hent).
    rewrite fold_left_app. cbn [fold_left].
    match goal with
    | |- context [fold_left ?f l []] => set (m := fold_left f l []) in *
    end.
    destruct (Map_has m (key t)) eqn:Hhas; cbn [negb].
    + apply Map_has_elem_of in Hhas. split; [assumption|split].
      * intros x. rewrite List.map_app, elem_of_app, Hkeys. cbn.
        rewrite list_elem_of_singleton. split; [now left|].
        intros [Hx| ->]; [assumption|now apply Hkeys].
      * intros k v Hin. destruct (Hent k v Hin) as (u & Hu & Hv).
        exists u. split; [now apply isFirst_snoc|assumption].
    + split; [now apply NoDup_Map_set_keys|split].
      * intros x. rewrite elem_of_Map_set_keys, List.map_app, elem_of_app, Hkeys.
        cbn. now rewrite list_elem_of_singleton.
      * intros k v Hin. rewrite (Map_set_fresh _ _ _ Hhas) in Hin.
        apply in_app_or in Hin as [Hin|[[= <- <-]|[]]].
        -- destruct (Hent k v Hin) as (u & Hu & Hv).
           exists u. split; [now apply isFirst_snoc|assumption].
        -- exists t. split; [|reflexivity].
           apply isFirst_new; [reflexivity|].
           apply Forall_forall. intros u Hu Heq.
           apply not_true_iff_false in Hhas. apply Hhas.
           apply Map_has_elem_of, Hkeys, list_elem_of_In, in_map_iff.
           exists u. split; [assumption|now apply list_elem_of_In].
Qed.

(** A map filled with an unconditional [m.set(key, value)]: one entry per
    key, made from the last table that has the key. *)
Lemma last_wins_fold {V} (key : Table.t -> Z) (mk : Table.t -> V)
    (l : list Table.t) :
  let m :=
    fold_left
      (fun (m : NumMap V) table => Map_set m (key table) (mk table)) l [] in
  NoDup (map fst m)
  /\ (forall x : Z, x ∈ map fst m <-> x ∈ map key l)
  /\ (forall (k : Z) (v : V),
         In (k, v) m ->
         exists t, isLast (fun u => key u = k) l t /\ v = mk t).
Proof.
  induction l as [|t l IH] using rev_ind; cbn zeta.
  - split; [constructor|split; [reflexivity|intros k v []]].
  - cbn zeta in IH. destruct IH as (Hnd & Hkeys & Hent).
    rewrite fold_left_app. cbn [fold_left].
    match goal with
    | |- context [fold_left ?f l []] => set (m := fold_left f l []) in *
    end.
    split; [now apply NoDup_Map_set_keys|split].
    + intros x. rewrite elem_of_Map_set_keys, List.map_app, elem_of_app, Hkeys.
      cbn. now rewrite list_elem_of_singleton.
    + intros k v Hin.
      destruct (Map_set_In _ _ _ _ _ Hnd Hin) as [[-> ->]|[Hne Hold]].
      * exists t. split; [now apply isLast_new|reflexivity].
      * destruct (Hent k v Hold) as (u & Hu & Hv).
        exists u. split; [|assumption].
        apply isLast_snoc; [congruence|assumption].
Qed.


(** ** Derived databases and workspaces *)

Section NormalizerClaims.
Context `{Host}.

Lemma allDatabases_derived (data : ERDData) :
  lacksDatabases data = true ->
  Home.allDatabases (Some data)
  = if (length (tables data) =? 0)%nat then []
    else sort Home.byDatabaseName
           (map (Home.derivedDatabase (tables data))
                (Home.uniqueDatabaseIds (tables data))).
Proof.
  unfold lacksDatabases, Home.allDatabases.
  destruct (databases data) as [[|row rows]|]; [reflexivity|discriminate|reflexivity].
Qed.

Lemma allWorkspaces_derived (data : ERDData) :
  lacksWorkspaces data = true ->
  Home.allWorkspaces (Some data)
  = if (length (tables data) =? 0)%nat then []
    else sort Home.byWorkspaceName
           (map (Home.derivedWorkspace (tables data))
                (Home.uniqueWorkspaceIds (tables data))).
Proof.
  unfold lacksWorkspaces, Home.allWorkspaces.
  destruct (workspaces data) as [[|row rows]|]; [reflexivity|discriminate|reflexivity].
Qed.

(** C5 (amended). Without an explicit [databases] list, the page derives
    as many databases as there are distinct non-zero [database_id]
    values among the tables (a table whose [database_id] is falsy is
    skipped); the diagram component's own [databases] list has one entry
    per distinct [database_id] value. *)
Theorem derived_database_cardinality (data : ERDData) :
  lacksDatabases data = true ->
  length (Home.allDatabases (Some data))
  = distinctIds (List.filter truthy (map Table.database_id (tables data)))
  /\ length (ERDDiagram.databases (tables data))
     = distinctIds (map Table.database_id (tables data)).
Proof.
  intros Hlacks. split.
  - rewrite (allDatabases_derived _ Hlacks).
    destruct (tables data) as [|t ts] eqn:Htables; [reflexivity|].
    cbn [length Nat.eqb]. rewrite sort_length, length_map.
    destruct (unique_ids_spec Table.database_id (t :: ts)) as [Hnd Hel].
    now apply length_distinct.
  - unfold ERDDiagram.databases, Map_values.
    rewrite sort_length, length_map.
    destruct (first_wins_fold Table.database_id
                (fun table =>
                   {| ERDDiagram.DatabaseOption.id := Table.database_id table;
                      ERDDiagram.DatabaseOption.name := Table.database_name table;
                      ERDDiagram.DatabaseOption.workspace_id :=
                        Number_of_number (Table.workspace_id table);
                      ERDDiagram.DatabaseOption.tableCount :=
                        len (List.filter
                               (inDatabase (Num (Table.database_id table)))
                               (tables data)) |})
                (tables data)) as (Hnd & Hkeys & _).
    cbn zeta in Hnd, Hkeys.
    rewrite <- (length_map fst). now apply length_distinct.
Qed.


End NormalizerClaims.

(** ** The evaluation host: option values and what [Number] reads back *)

Lemma to_int_proper (z : Z) :
  Z.to_int z <> Decimal.Pos Decimal.Nil /\ Z.to_int z <> Decimal.Neg Decimal.Nil.
Proof.
  destruct z as [|p|p]; cbn; split; try discriminate;
    intros [= Hnil]; now apply (DecimalPos.Unsigned.to_uint_nonnil p).
Qed.

Lemma toString_not_all (z : Z) : String.eqb (toString z) "all" = false.
Proof.
  unfold toString. destruct (Z.to_int z) as [u|u]; [|reflexivity].
  destruct u; reflexivity.
Qed.

Lemma toString_not_empty (z : Z) : String.eqb (toString z) "" = false.
Proof.
  unfold toString. destruct (Z.to_int z) as [u|u]; [|reflexivity].
  destruct u; reflexivity.
Qed.

(** The [value] of an [<option>] is [id.toString()]; the decimal reader
    gives the identifier back. *)
Lemma decimal_Number_toString (z : Z) : decimal_Number (toString z) = Num z.
Proof.
  unfold decimal_Number. rewrite toString_not_empty. unfold toString.
  destruct (to_int_proper z) as [Hpos Hneg].
  rewrite (NilZero.isi _ Hpos Hneg). now rewrite DecimalZ.of_to.
Qed.

(** On the evaluation host, choosing the options of workspace [w] and
    database [d] shows exactly the tables of that workspace and database. *)
Lemma option_values_select_their_ids (tables : list Table.t) (w d : Z) :
  filterTables tables
    {| selectedWorkspace := toString w; selectedDatabase := toString d |}
  = List.filter
      (fun t => (Table.workspace_id t =? w) && (Table.database_id t =? d))
      tables.
Proof.
  rewrite filterTables_specific by apply toString_not_all.
  cbn [Number_of_string ascii_host]. now rewrite !decimal_Number_toString.
Qed.

(** ** The claims on the sample payloads *)

Lemma database_needs_specific_workspace_witness :
  reachable Samples.backToAll
  /\ databaseSelectDisabled Samples.backToAll = true
  /\ selectedDatabase Samples.backToAll = "all".
Proof.
  assert (Hreach : reachable Samples.backToAll).
  { unfold Samples.backToAll.
    eapply reachable_step; [|apply step_workspace].
    eapply reachable_step; [|apply step_database; reflexivity].
    eapply reachable_step; [apply reachable_initial|apply step_workspace]. }
  split; [exact Hreach|].
  exact (proj1 (database_needs_specific_workspace Samples.backToAll Hreach)
               eq_refl).
Defined.

(** C3, as stated, fails: the entry that [filteredDatabases] returns for
    the sample row carries the announced count 5, while the payload has no
    table of that database. *)
Lemma filteredDatabases_returns_announced_count :
  databases Samples.staleCount = Some [Samples.salesRow]
  /\ map Database.tableCount
         (Home.filteredDatabases (Some Samples.staleCount) initialState) = [5]
  /\ map (fun db => liveCount (tables Samples.staleCount) (Database.id db))
         (Home.filteredDatabases (Some Samples.staleCount) initialState) = [0].
Proof. split; [reflexivity|split; reflexivity]. Qed.

Lemma explicit_databases_under_all_witness :
  databases Samples.staleCount = Some [Samples.salesRow]
  /\ selectedWorkspace initialState = "all"
  /\ map Database.name
         (Home.filteredDatabases (Some Samples.staleCount) initialState)
     = ["Sales"]
  /\ map Database.tableCount
         (Home.databasesWithCorrectCounts (Some Samples.staleCount) initialState)
     = [0].
Proof.
  split; [reflexivity|split; [reflexivity|]].
  pose proof (explicit_databases_under_all Samples.staleCount Samples.salesRow
                [] initialState eq_refl eq_refl) as W.
  cbv zeta in W. destruct W as (_ & _ & Hname & _ & _ & _ & Hcount).
  split; [exact Hname|exact Hcount].
Defined.

Lemma text_selection_matches_numeric_id_witness :
  String.eqb "100" "all" = false
  /\ String.eqb "10" "all" = false
  /\ Number_of_string "100" = Num 100
  /\ Number_of_string "10" = Num 10
  /\ Home.filteredTables (Some Samples.scenario) Samples.specific
     = [Samples.users; Samples.orders].
Proof.
  repeat (split; [reflexivity|]).
  exact (proj1 (text_selection_matches_numeric_id Samples.scenario
                  "100" "10" 100 10 eq_refl eq_refl eq_refl eq_refl)).
Defined.

(** C5, as stated, fails: the sample payload has one distinct
    [database_id], zero, and the page derives no database from it. *)
Lemma zero_database_id_is_skipped :
  lacksDatabases Samples.zeroId = true
  /\ length (Home.allDatabases (Some Samples.zeroId)) = 0%nat
  /\ distinctIds (map Table.database_id (tables Samples.zeroId)) = 1%nat.
Proof. split; [reflexivity|split; reflexivity]. Qed.

Lemma derived_database_cardinality_witness :
  lacksDatabases Samples.scenario = true
  /\ length (Home.allDatabases (Some Samples.scenario)) = 1%nat
  /\ length (ERDDiagram.databases (tables Samples.scenario)) = 1%nat.
Proof.
  split; [reflexivity|].
  exact (derived_database_cardinality Samples.scenario eq_refl).
Defined.





(** * Further properties of the code *)

(** ** Printing identifiers *)

Lemma toString_inj (a b : Z) : toString a = toString b -> a = b.
Proof.
  intros Heq. assert (Hnum : Num a = Num b).
  { rewrite <- !decimal_Number_toString. now rewrite Heq. }
  now injection Hnum.
Qed.

Lemma toString_eqb (a b : Z) : String.eqb (toString a) (toString b) = (a =? b).
Proof.
  destruct (Z.eqb_spec a b) as [->|Hne].
  - apply String.eqb_refl.
  - apply String.eqb_neq. intros Heq. now apply Hne, toString_inj.
Qed.

(** ** The table filter *)

Lemma filter_all {A} (l : list A) : List.filter (fun _ => true) l = l.
Proof. induction l as [|x l IH]; cbn; [reflexivity|now rewrite IH]. Qed.

Lemma filter_sublist {A} (p : A -> bool) (l : list A) :
  sublist (List.filter p l) l.
Proof.
  induction l as [|x l IH]; cbn; [constructor|].
  destruct (p x); now constructor.
Qed.

Lemma filter_idempotent {A} (p : A -> bool) (l : list A) :
  List.filter p (List.filter p l) = List.filter p l.
Proof.
  rewrite filter_filter_andb. apply List.filter_ext.
  intros x. now destruct (p x).
Qed.

Section TableFilter.
Context `{Host}.

(** For a given selection the table filter is one [filter]. *)
Lemma filterTables_is_filter (st : FilterState) :
  exists p : Table.t -> bool,
    forall tables : list Table.t, filterTables tables st = List.filter p tables.
Proof.
  unfold filterTables.
  destruct (negb (String.eqb (selectedWorkspace st) "all"));
    destruct (negb (String.eqb (selectedDatabase st) "all")).
  - eexists. intros tables. apply filter_filter_andb.
  - eexists. intros tables. reflexivity.
  - eexists. intros tables. reflexivity.
  - exists (fun _ => true). intros tables. now rewrite filter_all.
Qed.

(** X2. The table filter only drops tables: what it returns is a subsequence
    of the payload's tables; filtering the result again by the same
    selection changes nothing; with no selection every table passes; and a
    database selection only narrows what the workspace selection shows. *)
Theorem filterTables_narrows (tables : list Table.t) (st : FilterState) :
  sublist (filterTables tables st) tables
  /\ filterTables (filterTables tables st) st = filterTables tables st
  /\ filterTables tables initialState = tables
  /\ sublist (filterTables tables st)
             (filterTables tables (setSelectedDatabase "all" st)).
Proof.
  destruct (filterTables_is_filter st) as [p Hp].
  split; [|split; [|split]].
  - rewrite Hp. apply filter_sublist.
  - rewrite !Hp. apply filter_idempotent.
  - reflexivity.
  - unfold filterTables. cbn.
    destruct (negb (String.eqb (selectedDatabase st) "all")).
    + apply filter_sublist.
    + reflexivity.
Qed.

End TableFilter.

(** ** The derived diagram *)

Lemma map_imap_pointwise {A B C} (g : B -> C) (f : nat -> A -> B)
    (h : nat -> A -> C) (l : list A) :
  (forall i x, g (f i x) = h i x) -> map g (imap f l) = imap h l.
Proof.
  revert f h. induction l as [|x l IH]; intros f h Hgf; cbn; [reflexivity|].
  rewrite Hgf. f_equal. apply IH. intros i y. apply Hgf.
Qed.

Lemma imap_without_index {A B} (h : A -> B) (l : list A) :
  imap (fun _ => h) l = map h l.
Proof. induction l as [|x l IH]; cbn; [reflexivity|]. f_equal. exact IH. Qed.

Lemma In_imap {A B} (f : nat -> A -> B) (l : list A) (y : B) :
  In y (imap f l) -> exists i x, l !! i = Some x /\ y = f i x.
Proof.
  intros Hin. apply list_elem_of_In, elem_of_lookup_imap in Hin
    as (i & x & -> & Hx).
  now exists i, x.
Qed.

Lemma lookup_map {A B} (f : A -> B) (l : list A) (i : nat) :
  map f l !! i = f <$> l !! i.
Proof.
  revert i. induction l as [|x l IH]; intros [|i]; cbn; try reflexivity.
  apply IH.
Qed.

Lemma NoDup_map_inj {A B} (f : A -> B) (l : list A) :
  (forall x y, f x = f y -> x = y) -> NoDup l -> NoDup (map f l).
Proof.
  intros Hinj. induction 1 as [|x l Hx Hl IH]; cbn; constructor.
  - rewrite list_elem_of_In, in_map_iff. intros (y & Hfy & Hy).
    apply Hinj in Hfy. subst y. now apply Hx, list_elem_of_In.
  - exact IH.
Qed.

(** A cell of a grid with three columns determines its index. *)
Lemma grid_cell_inj (i j : nat) (dx dy x0 y0 : Z) :
  0 < dx -> 0 < dy ->
  (Z.of_nat i mod 3 * dx + x0, Z.of_nat i / 3 * dy + y0)
  = (Z.of_nat j mod 3 * dx + x0, Z.of_nat j / 3 * dy + y0) ->
  i = j.
Proof.
  intros Hdx Hdy [= Hx Hy].
  assert (Hm : Z.of_nat i mod 3 = Z.of_nat j mod 3) by nia.
  assert (Hd : Z.of_nat i / 3 = Z.of_nat j / 3) by nia.
  pose proof (Z.div_mod (Z.of_nat i) 3 ltac:(lia)) as Hi.
  pose proof (Z.div_mod (Z.of_nat j) 3 ltac:(lia)) as Hj.
  rewrite Hm, Hd in Hi. lia.
Qed.

Section Diagram.
Context `{Host}.

Lemma initialNodes_ids (tables : list Table.t) :
  map Node.id (ERDDiagram.initialNodes tables)
  = map (fun t => toString (Table.id t)) tables.
Proof.
  unfold ERDDiagram.initialNodes.
  rewrite (map_imap_pointwise _ _ (fun _ t => toString (Table.id t)))
    by reflexivity.
  apply imap_without_index.
Qed.

(** X3. No edge of the derived diagram dangles: whatever the tables, the
    relationships and the panel's selection, the source and the target of
    every edge are identifiers of nodes of the same diagram. *)
Theorem derive_edges_join_nodes (tables : list Table.t)
    (relationships : list Relationship.t) (st : FilterState) (e : Edge.t) :
  let diagram := ERDDiagram.derive tables relationships st in
  In e (snd diagram) ->
  In (Edge.source e) (map Node.id (fst diagram))
  /\ In (Edge.target e) (map Node.id (fst diagram)).
Proof.
  cbn zeta. unfold ERDDiagram.derive. cbn [fst snd].
  set (visible := ERDDiagram.filteredTables tables st).
  intros Hin. unfold ERDDiagram.initialEdges in Hin.
  apply In_imap in Hin as (i & rel & Hrel & ->).
  apply list_elem_of_lookup_2, list_elem_of_In in Hrel.
  unfold ERDDiagram.filteredRelationships, ERDDiagram.tableIds in Hrel.
  apply filter_In in Hrel as [_ Hboth].
  apply andb_true_iff in Hboth as [Hsrc Htgt].
  rewrite in_gset_existsb, existsb_eqb_In in Hsrc, Htgt.
  rewrite initialNodes_ids. cbn.
  split.
  - apply in_map_iff in Hsrc as (t & <- & Ht). apply in_map_iff. now exists t.
  - apply in_map_iff in Htgt as (t & <- & Ht). apply in_map_iff. now exists t.
Qed.


(** X5. Tables with distinct identifiers give nodes with distinct identifiers,
    so a node identifier names one table. *)
Theorem node_ids_distinct (tables : list Table.t) :
  NoDup (map Table.id tables) ->
  NoDup (map Node.id (ERDDiagram.initialNodes tables)).
Proof.
  intros Hnd. rewrite initialNodes_ids, <- (map_map Table.id toString).
  apply NoDup_map_inj; [apply toString_inj|exact Hnd].
Qed.

End Diagram.

(** ** Counting tables, databases and workspaces *)

Lemma len_filter_key (key : Table.t -> Z) (tables : list Table.t) (k : Z) :
  len (List.filter (fun t => key t =? k) tables)
  = Z.of_nat (count_occ Z.eq_dec (map key tables) k).
Proof.
  unfold len. f_equal.
  induction tables as [|t tables IH]; simpl; [reflexivity|].
  destruct (Z.eq_dec (key t) k) as [Heq|Hne].
  - apply Z.eqb_eq in Heq. rewrite Heq. simpl. now rewrite IH.
  - apply Z.eqb_neq in Hne. now rewrite Hne.
Qed.

Lemma liveCount_positive (tables : list Table.t) (d : Z) :
  (liveCount tables d >? 0) = true <-> In d (map Table.database_id tables).
Proof.
  unfold liveCount. rewrite (count_occ_In Z.eq_dec), Z.gtb_lt. lia.
Qed.

Lemma total_cons (x : Z) (l : list Z) : total (x :: l) = x + total l.
Proof. reflexivity. Qed.

Lemma total_app (l k : list Z) : total (l ++ k) = total l + total k.
Proof. unfold total. induction l as [|x l IH]; cbn in *; lia. Qed.

Lemma total_perm (l k : list Z) : Permutation l k -> total l = total k.
Proof. unfold total. induction 1; cbn in *; lia. Qed.

Lemma total_map_add {A} (a b : A -> Z) (l : list A) :
  total (map (fun x => a x + b x) l) = total (map a l) + total (map b l).
Proof. unfold total. induction l as [|x l IH]; cbn in *; lia. Qed.

Lemma total_indicator (ids : list Z) (x : Z) :
  NoDup ids ->
  total (map (fun k => if x =? k then 1 else 0) ids)
  = if existsb (Z.eqb x) ids then 1 else 0.
Proof.
  induction 1 as [|k ids Hk Hnd IH]; [reflexivity|].
  cbn [map existsb]. rewrite total_cons, IH.
  destruct (Z.eqb_spec x k) as [->|Hne]; cbn [orb]; [|lia].
  destruct (existsb (Z.eqb k) ids) eqn:Hex; [|reflexivity].
  apply existsb_eqb_In, list_elem_of_In in Hex. contradiction.
Qed.

(** Counting the tables key by key over distinct keys counts every table
    whose key is listed, once. *)
Lemma total_counts_by_key (key : Table.t -> Z) (ids : list Z)
    (tables : list Table.t) :
  NoDup ids ->
  total (map (fun k => len (List.filter (fun t => key t =? k) tables)) ids)
  = len (List.filter (fun t => existsb (Z.eqb (key t)) ids) tables).
Proof.
  intros Hnd. induction tables as [|t tables IH].
  - cbn [List.filter]. clear Hnd.
    induction ids as [|k ids IHids]; [reflexivity|].
    cbn [map]. rewrite total_cons, IHids. reflexivity.
  - transitivity
      (total (map (fun k => (if key t =? k then 1 else 0)
                            + len (List.filter (fun u => key u =? k) tables))
                  ids)).
    { f_equal. apply map_ext. intros k. cbn [List.filter].
      destruct (key t =? k); unfold len; cbn [length]; lia. }
    rewrite total_map_add, IH, (total_indicator _ _ Hnd). cbn [List.filter].
    destruct (existsb (Z.eqb (key t)) ids); unfold len; cbn [length]; lia.
Qed.

Lemma values_keep_keys {V} (idOf : V -> Z) (m : NumMap V) :
  (forall k v, In (k, v) m -> idOf v = k) ->
  map idOf (Map_values m) = map fst m.
Proof.
  intros Hid. unfold Map_values. rewrite map_map.
  apply map_ext_in. intros [k v] Hin. now apply Hid.
Qed.

(** The loop that fills a set of ids from the tables that pass a test. *)
Lemma collected_ids_spec (keep : Table.t -> bool) (key : Table.t -> Z)
    (tables : list Table.t) :
  let ids :=
    fold_left
      (fun ids table => if keep table then Set_add ids (key table) else ids)
      tables [] in
  NoDup ids
  /\ forall x : Z, x ∈ ids <-> x ∈ map key (List.filter keep tables).
Proof.
  induction tables as [|t tables IH] using rev_ind; cbn zeta.
  - split; [constructor|reflexivity].
  - cbn zeta in IH. destruct IH as [Hnd Hel].
    rewrite fold_left_app, List.filter_app, List.map_app.
    cbn [fold_left List.filter].
    destruct (keep t); cbn [map].
    + split; [now apply NoDup_Set_add|].
      intros x. rewrite elem_of_Set_add, elem_of_app, list_elem_of_singleton, Hel.
      reflexivity.
    + split; [assumption|].
      intros x. rewrite app_nil_r. apply Hel.
Qed.

Section Counting.
Context `{Host}.

(** X6. The list built for the database selector trusts nothing the payload
    announces: whatever the selection, it keeps the filtered databases in
    order, counts for each the tables of the payload that carry its id, and
    says it has tables exactly when there is such a table. *)
Theorem recount_ignores_announcements (data : ERDData) (st : FilterState) :
  let recounted := Home.databasesWithCorrectCounts (Some data) st in
  map Database.id recounted
  = map Database.id (Home.filteredDatabases (Some data) st)
  /\ map Database.name recounted
     = map Database.name (Home.filteredDatabases (Some data) st)
  /\ Forall
       (fun db =>
          Database.tableCount db = liveCount (tables data) (Database.id db)
          /\ (Database.hasTables db = true
              <-> In (Database.id db) (map Table.database_id (tables data))))
       recounted.
Proof.
  cbn zeta. unfold Home.databasesWithCorrectCounts.
  rewrite !map_map. cbn [Database.id Database.name Database.with_counts].
  split; [reflexivity|split; [reflexivity|]].
  apply Forall_forall. intros db Hdb.
  apply list_elem_of_In, in_map_iff in Hdb as (db0 & <- & _).
  cbn [Database.id Database.tableCount Database.hasTables Database.with_counts].
  rewrite len_filter_inDatabase. split; [reflexivity|apply liveCount_positive].
Qed.

Lemma derived_workspace_ids (tables : list Table.t) :
  Permutation
    (map Workspace.id
       (sort Home.byWorkspaceName
          (map (Home.derivedWorkspace tables) (Home.uniqueWorkspaceIds tables))))
    (Home.uniqueWorkspaceIds tables).
Proof.
  rewrite (Permutation_map Workspace.id (sort_perm _ _)), map_map. cbn.
  now rewrite map_id.
Qed.

Lemma derived_database_ids (tables : list Table.t) :
  Permutation
    (map Database.id
       (sort Home.byDatabaseName
          (map (Home.derivedDatabase tables) (Home.uniqueDatabaseIds tables))))
    (Home.uniqueDatabaseIds tables).
Proof.
  rewrite (Permutation_map Database.id (sort_perm _ _)), map_map. cbn.
  now rewrite map_id.
Qed.

(** X7. Without an explicit [workspaces] list the page derives one workspace
    per distinct non-zero [workspace_id], no identifier twice; each counts
    the tables that carry its id, and as databases the distinct non-zero
    [database_id]s among those tables. *)
Theorem derived_workspaces_count (data : ERDData) :
  lacksWorkspaces data = true ->
  let derived := Home.allWorkspaces (Some data) in
  length derived
  = distinctIds (List.filter truthy (map Table.workspace_id (tables data)))
  /\ NoDup (map Workspace.id derived)
  /\ Forall
       (fun ws =>
          Workspace.tableCount ws
          = Z.of_nat (count_occ Z.eq_dec
                        (map Table.workspace_id (tables data)) (Workspace.id ws))
          /\ Workspace.databaseCount ws
             = Z.of_nat
                 (distinctIds
                    (map Table.database_id
                       (List.filter
                          (fun t => (Table.workspace_id t =? Workspace.id ws)
                                    && truthy (Table.database_id t))
                          (tables data)))))
       derived.
Proof.
  intros Hlacks. cbn zeta. rewrite (allWorkspaces_derived _ Hlacks).
  destruct (tables data) as [|t0 ts] eqn:Htables.
  { cbn. split; [reflexivity|split; constructor]. }
  cbn [length Nat.eqb]. rewrite <- Htables.
  destruct (unique_ids_spec Table.workspace_id (tables data)) as [Hnd Hel].
  cbn zeta in Hnd, Hel.
  split; [|split].
  - rewrite sort_length, length_map. now apply length_distinct.
  - rewrite derived_workspace_ids. exact Hnd.
  - apply Forall_forall. intros ws Hws.
    apply list_elem_of_In, sort_In, in_map_iff in Hws as (wsId & <- & _).
    cbn [Workspace.id Workspace.tableCount Workspace.databaseCount
         Home.derivedWorkspace].
    split.
    + apply (len_filter_key Table.workspace_id).
    + unfold len. f_equal.
      destruct (collected_ids_spec
                  (fun table => inWorkspace (Num wsId) table
                                && truthy (Table.database_id table))
                  Table.database_id (tables data)) as [Hnd' Hel'].
      cbn zeta in Hnd', Hel'. now apply length_distinct.
Qed.

(** X8. Without an explicit [databases] list the derived databases share out
    the tables that have a non-zero [database_id]: no identifier comes
    twice and the table counts add up to the number of those tables. *)
Theorem derived_databases_share_out_tables (data : ERDData) :
  lacksDatabases data = true ->
  let derived := Home.allDatabases (Some data) in
  NoDup (map Database.id derived)
  /\ total (map Database.tableCount derived)
     = len (List.filter (fun t => truthy (Table.database_id t)) (tables data)).
Proof.
  intros Hlacks. cbn zeta. rewrite (allDatabases_derived _ Hlacks).
  destruct (tables data) as [|t0 ts] eqn:Htables.
  { cbn. split; [constructor|reflexivity]. }
  cbn [length Nat.eqb]. rewrite <- Htables.
  destruct (unique_ids_spec Table.database_id (tables data)) as [Hnd Hel].
  cbn zeta in Hnd, Hel.
  split.
  - rewrite derived_database_ids. exact Hnd.
  - rewrite (total_perm _ _ (Permutation_map Database.tableCount (sort_perm _ _))).
    rewrite map_map. cbn [Database.tableCount Home.derivedDatabase].
    change (total
              (map (fun k => len (List.filter
                                    (fun t => Table.database_id t =? k)
                                    (tables data)))
                   (Home.uniqueDatabaseIds (tables data)))
            = len (List.filter (fun t => truthy (Table.database_id t))
                               (tables data))).
    rewrite (total_counts_by_key Table.database_id _ _ Hnd). f_equal.
    apply List.filter_ext_in. intros t Ht.
    destruct (truthy (Table.database_id t)) eqn:Htruthy.
    + apply existsb_eqb_In, list_elem_of_In, Hel, list_elem_of_In, filter_In.
      split; [|exact Htruthy]. apply in_map_iff. now exists t.
    + apply not_true_iff_false. intros Hex.
      apply existsb_eqb_In, list_elem_of_In, Hel, list_elem_of_In, filter_In in Hex.
      destruct Hex as [_ Hex]. congruence.
Qed.

End Counting.

(** ** The diagram component's own lists *)

Section PanelLists.
Context `{Host}.

(** X9. The databases offered by the diagram's panel: no identifier twice,
    every table's database among them, each with the number of tables that
    carry its id, and these numbers add up to the number of tables. *)
Theorem diagram_databases_listing (tables : list Table.t) :
  let listed := ERDDiagram.databases tables in
  NoDup (map ERDDiagram.DatabaseOption.id listed)
  /\ (forall t : Table.t,
         In t tables ->
         In (Table.database_id t) (map ERDDiagram.DatabaseOption.id listed))
  /\ Forall
       (fun db =>
          ERDDiagram.DatabaseOption.tableCount db
          = liveCount tables (ERDDiagram.DatabaseOption.id db))
       listed
  /\ total (map ERDDiagram.DatabaseOption.tableCount listed) = len tables.
Proof.
  cbn zeta. unfold ERDDiagram.databases.
  set (mk := fun table : Table.t =>
               {| ERDDiagram.DatabaseOption.id := Table.database_id table;
                  ERDDiagram.DatabaseOption.name := Table.database_name table;
                  ERDDiagram.DatabaseOption.workspace_id :=
                    Number_of_number (Table.workspace_id table);
                  ERDDiagram.DatabaseOption.tableCount :=
                    len (List.filter
                           (inDatabase (Num (Table.database_id table)))
                           tables) |}).
  destruct (first_wins_fold Table.database_id mk tables) as (Hnd & Hkeys & Hent).
  cbn zeta in Hnd, Hkeys, Hent.
  change (fold_left _ tables []) with (ERDDiagram.databaseMap tables)
    in Hnd, Hkeys, Hent.
  set (m := ERDDiagram.databaseMap tables) in *.
  assert (Hids : map ERDDiagram.DatabaseOption.id (Map_values m) = map fst m).
  { apply values_keep_keys. intros k v Hin.
    destruct (Hent k v Hin) as (t & (pre & post & _ & Hk & _) & ->). exact Hk. }
  assert (Hcounts : forall k v, In (k, v) m ->
            ERDDiagram.DatabaseOption.tableCount v
            = len (List.filter (fun t => Table.database_id t =? k) tables)).
  { intros k v Hin.
    destruct (Hent k v Hin) as (t & (pre & post & _ & Hk & _) & ->).
    cbn. now rewrite <- Hk. }
  split; [|split; [|split]].
  - rewrite (Permutation_map _ (sort_perm _ _)), Hids. exact Hnd.
  - intros t Ht. apply (Permutation_in _ (Permutation_sym
                          (Permutation_map _ (sort_perm _ _)))).
    rewrite Hids. apply list_elem_of_In, Hkeys, list_elem_of_In, in_map_iff.
    now exists t.
  - apply Forall_forall. intros db Hdb.
    apply list_elem_of_In, sort_In in Hdb. unfold Map_values in Hdb.
    apply in_map_iff in Hdb as ([k v] & <- & Hin). cbn [snd].
    destruct (Hent k v Hin) as (t & _ & ->). cbn.
    apply len_filter_inDatabase.
  - rewrite (total_perm _ _ (Permutation_map _ (sort_perm _ _))).
    unfold Map_values. rewrite map_map.
    transitivity
      (total (map (fun k => len (List.filter
                                   (fun t => Table.database_id t =? k) tables))
                  (map fst m))).
    { f_equal. rewrite map_map. apply map_ext_in.
      intros [k v] Hin. now apply Hcounts. }
    rewrite (total_counts_by_key Table.database_id _ _ Hnd).
    rewrite <- (filter_all tables) at 2. f_equal.
    apply List.filter_ext_in. intros t Ht.
    apply existsb_eqb_In, list_elem_of_In, Hkeys, list_elem_of_In, in_map_iff.
    now exists t.
Qed.

(** X10. The workspaces offered by the diagram's panel: no identifier twice,
    every table's workspace among them, one per distinct [workspace_id],
    the zero one included. *)
Theorem diagram_workspaces_listing (tables : list Table.t) :
  let listed := ERDDiagram.workspaces tables in
  NoDup (map WorkspaceRow.id listed)
  /\ (forall t : Table.t,
         In t tables -> In (Table.workspace_id t) (map WorkspaceRow.id listed))
  /\ length listed = distinctIds (map Table.workspace_id tables).
Proof.
  cbn zeta. unfold ERDDiagram.workspaces.
  set (mk := fun table : Table.t =>
               {| WorkspaceRow.id := Table.workspace_id table;
                  WorkspaceRow.name := Table.workspace_name table |}).
  destruct (last_wins_fold Table.workspace_id mk tables) as (Hnd & Hkeys & Hent).
  cbn zeta in Hnd, Hkeys, Hent.
  change (fold_left _ tables []) with (ERDDiagram.workspaceMap tables)
    in Hnd, Hkeys, Hent.
  set (m := ERDDiagram.workspaceMap tables) in *.
  assert (Hids : map WorkspaceRow.id (Map_values m) = map fst m).
  { apply values_keep_keys. intros k v Hin.
    destruct (Hent k v Hin) as (t & (pre & post & _ & Hk & _) & ->). exact Hk. }
  split; [|split].
  - rewrite (Permutation_map _ (sort_perm _ _)), Hids. exact Hnd.
  - intros t Ht. apply (Permutation_in _ (Permutation_sym
                          (Permutation_map _ (sort_perm _ _)))).
    rewrite Hids. apply list_elem_of_In, Hkeys, list_elem_of_In, in_map_iff.
    now exists t.
  - rewrite sort_length. unfold Map_values. rewrite length_map.
    rewrite <- (length_map fst). now apply length_distinct.
Qed.

End PanelLists.

(** ** Choosing an option *)

Lemma find_by_unique_key {A} (key : A -> Z) (l : list A) (x : A) :
  NoDup (map key l) -> In x l ->
  find (fun y => String.eqb (toString (key y)) (toString (key x))) l = Some x.
Proof.
  induction l as [|y l IH]; cbn; [contradiction|].
  intros Hnd Hin. apply NoDup_cons in Hnd as [Hy Hnd].
  rewrite toString_eqb. destruct Hin as [->|Hin].
  - now rewrite Z.eqb_refl.
  - destruct (Z.eqb_spec (key y) (key x)) as [Heq|Hne]; [|now apply IH].
    exfalso. apply Hy. rewrite Heq. apply list_elem_of_In, in_map_iff.
    now exists x.
Qed.

Lemma or_else_named (s fallback : string) :
  s <> "" -> or_else s fallback = s.
Proof. intros Hs. unfold or_else. apply String.eqb_neq in Hs. now rewrite Hs. Qed.

Lemma or_else_not_empty (s fallback : string) :
  fallback <> "" -> or_else s fallback <> "".
Proof.
  intros Hf. unfold or_else. destruct (String.eqb_spec s ""); assumption.
Qed.

Section Choosing.
Context `{Host}.

Lemma allWorkspaces_tableCount (data : ERDData) (ws : Workspace.t) :
  In ws (Home.allWorkspaces (Some data)) ->
  Workspace.tableCount ws
  = len (List.filter (inWorkspace (Num (Workspace.id ws))) (tables data)).
Proof.
  unfold Home.allWorkspaces.
  destruct (workspaces data) as [[|row rows]|].
  - destruct (length (tables data) =? 0)%nat; [intros []|].
    rewrite sort_In, in_map_iff. now intros (wsId & <- & _).
  - rewrite in_map_iff. now intros (r & <- & _).
  - destruct (length (tables data) =? 0)%nat; [intros []|].
    rewrite sort_In, in_map_iff. now intros (wsId & <- & _).
Qed.

(** X14. Without explicit lists, the summary line names what was chosen: after
    the option of a derived workspace is chosen it shows that workspace's
    name, and after the option of a derived database, that database's. *)
Theorem summary_names_the_choice (data : ERDData) (st : FilterState) :
  lacksWorkspaces data = true ->
  lacksDatabases data = true ->
  (forall ws : Workspace.t,
      In ws (Home.allWorkspaces (Some data)) ->
      Home.workspaceSummary (Some data)
        (handleWorkspaceChange (toString (Workspace.id ws)) st)
      = Some (Workspace.name ws))
  /\ (forall db : Database.t,
         In db (Home.allDatabases (Some data)) ->
         Home.databaseSummary (Some data)
           (handleDatabaseChange (toString (Database.id db)) st)
         = Some (Database.name db)).
Proof.
  intros Hwss Hdbs. split.
  - intros ws Hws. unfold Home.workspaceSummary. cbn [selectedWorkspace
      handleWorkspaceChange setSelectedDatabase setSelectedWorkspace].
    rewrite toString_not_all. cbn [negb].
    rewrite (find_by_unique_key Workspace.id _ ws); [|
      |exact Hws].
    + cbn. f_equal. apply or_else_named.
      rewrite (allWorkspaces_derived _ Hwss) in Hws.
      destruct (length (tables data) =? 0)%nat; [destruct Hws|].
      apply sort_In, in_map_iff in Hws as (wsId & <- & _). cbn.
      apply or_else_not_empty. discriminate.
    + rewrite (allWorkspaces_derived _ Hwss).
      destruct (length (tables data) =? 0)%nat; [constructor|].
      rewrite derived_workspace_ids.
      apply (unique_ids_spec Table.workspace_id (tables data)).
  - intros db Hdb. unfold Home.databaseSummary. cbn [selectedDatabase
      handleDatabaseChange setSelectedDatabase].
    rewrite toString_not_all. cbn [negb].
    rewrite (find_by_unique_key Database.id _ db); [|
      |exact Hdb].
    + cbn. f_equal. apply or_else_named.
      rewrite (allDatabases_derived _ Hdbs) in Hdb.
      destruct (length (tables data) =? 0)%nat; [destruct Hdb|].
      apply sort_In, in_map_iff in Hdb as (dbId & <- & _).
      unfold Home.derivedDatabase. cbn [Database.name].
      apply or_else_not_empty. discriminate.
    + rewrite (allDatabases_derived _ Hdbs).
      destruct (length (tables data) =? 0)%nat; [constructor|].
      rewrite derived_database_ids.
      apply (unique_ids_spec Table.database_id (tables data)).
Qed.

End Choosing.

(** X12. On the evaluation host the count announced in a workspace option is
    the number of tables shown once that option is chosen, whichever way
    the workspaces were obtained. *)
Theorem workspace_option_count_is_shown (data : ERDData) (st : FilterState)
    (ws : Workspace.t) :
  In ws (Home.allWorkspaces (Some data)) ->
  Workspace.tableCount ws
  = len (Home.filteredTables (Some data)
           (handleWorkspaceChange (toString (Workspace.id ws)) st)).
Proof.
  intros Hws. rewrite (allWorkspaces_tableCount _ _ Hws).
  unfold Home.filteredTables, filterTables. cbn [selectedWorkspace
    selectedDatabase handleWorkspaceChange setSelectedDatabase
    setSelectedWorkspace].
  rewrite toString_not_all. cbn.
  now rewrite decimal_Number_toString.
Qed.

Lemma length_filter_after {A} (p q : A -> bool) (l : list A) :
  (length (List.filter p (List.filter q l)) <= length (List.filter p l))%nat.
Proof.
  induction l as [|x l IH]; simpl; [lia|].
  destruct (q x) eqn:Hq, (p x) eqn:Hp; simpl; rewrite ?Hp; simpl; lia.
Qed.

(** X13. On the evaluation host a database option never announces fewer tables
    than are shown once it is chosen: the option counts the tables of the
    database in every workspace, the filter shows those of the selected
    workspace. *)
Theorem database_option_count_bounds_shown (data : ERDData)
    (st : FilterState) (db : Database.t) :
  In db (Home.databasesWithCorrectCounts (Some data) st) ->
  len (Home.filteredTables (Some data)
         (handleDatabaseChange (toString (Database.id db)) st))
  <= Database.tableCount db.
Proof.
  unfold Home.databasesWithCorrectCounts. rewrite in_map_iff.
  intros (db0 & <- & _). cbn [Database.id Database.tableCount
    Database.with_counts].
  unfold Home.filteredTables, filterTables. cbn [selectedWorkspace
    selectedDatabase handleDatabaseChange setSelectedDatabase].
  rewrite toString_not_all. cbn [negb Number_of_string ascii_host].
  rewrite decimal_Number_toString.
  destruct (negb (String.eqb (selectedWorkspace st) "all")).
  - unfold len. apply inj_le, length_filter_after.
  - unfold len. lia.
Qed.

(** ** Fetching *)

(** X15. When the page's fetch settles it is no longer loading and holds
    either the data or an error message, never both and never neither; it
    holds data exactly when an ok response was parsed, and a response that
    is not ok is reported with its status. *)
Theorem fetch_settles (outcome : Fetch.Outcome ERDData)
    (page : Home.PageState) :
  let settled := Home.fetchERDData outcome page in
  Home.isLoading settled = false
  /\ (Home.error settled = None <-> is_Some (Home.erdData settled))
  /\ (forall data : ERDData,
         Home.erdData settled = Some data
         <-> exists status : Z,
               outcome
               = Fetch.Resolved {| Fetch.ok := true; Fetch.status := status;
                                   Fetch.json := inl data |})
  /\ (forall (status : Z) (body : ERDData + Fetch.Thrown),
         Home.error
           (Home.fetchERDData
              (Fetch.Resolved {| Fetch.ok := false; Fetch.status := status;
                                 Fetch.json := body |})
              page)
         = Some ("Error fetching ERD data: HTTP error! status: "
                 ++ toString status)).
Proof.
  cbn zeta. split; [reflexivity|split; [|split]].
  - destruct outcome as [e|[[|] status [data|e]]]; cbn;
      (split; [discriminate || (intros _; eexists; reflexivity)
              |(intros _; reflexivity) || (intros [? [=]])]).
  - intros data. destruct outcome as [e|[[|] status [data'|e]]]; cbn.
    + split; [discriminate|intros [s [=]]].
    + split.
      * intros [= ->]. now exists status.
      * intros [s Heq]. injection Heq as _ Hdata. now rewrite Hdata.
    + split; [discriminate|intros [s [=]]].
    + split; [discriminate|intros [s [=]]].
    + split; [discriminate|intros [s [=]]].
  - intros status body. reflexivity.
Qed.

(** ** The per-application page *)








(** X19. The grid of the per-application page never puts two nodes on one
    spot and has one node per table. *)
Theorem flow_grid_has_no_overlap (appTables : list ERDPage.AppTable.t) :
  NoDup (map (fun n => (ERDPage.FlowNode.x n, ERDPage.FlowNode.y n))
             (ERDPage.flowNodes appTables))
  /\ length (ERDPage.flowNodes appTables) = length appTables.
Proof.
  unfold ERDPage.flowNodes. split; [|apply length_imap].
  apply NoDup_alt. intros i j pos Hi Hj.
  rewrite lookup_map, list_lookup_imap in Hi, Hj.
  destruct (appTables !! i) as [ti|]; [|discriminate].
  destruct (appTables !! j) as [tj|]; [|discriminate].
  cbn in Hi, Hj. rewrite <- Hj in Hi. injection Hi as Hx Hy.
  apply (grid_cell_inj i j 300 300 200 100); [lia|lia|].
  f_equal; lia.
Qed.

(** ** The further properties on the sample payloads *)

Lemma derive_edges_join_nodes_witness :
  let diagram :=
    ERDDiagram.derive (tables Samples.scenario)
      (relationships Samples.scenario) initialState in
  In (relationshipEdge 0 Samples.userLink) (snd diagram)
  /\ In "2" (map Node.id (fst diagram))
  /\ In "1" (map Node.id (fst diagram)).
Proof.
  cbn zeta.
  assert (Hin : In (relationshipEdge 0 Samples.userLink)
                   (snd (ERDDiagram.derive (tables Samples.scenario)
                           (relationships Samples.scenario) initialState))).
  { left. reflexivity. }
  split; [exact Hin|].
  exact (derive_edges_join_nodes (tables Samples.scenario)
           (relationships Samples.scenario) initialState
           (relationshipEdge 0 Samples.userLink) Hin).
Defined.

Lemma node_ids_distinct_witness :
  NoDup (map Table.id (tables Samples.scenario))
  /\ NoDup (map Node.id (ERDDiagram.initialNodes (tables Samples.scenario))).
Proof.
  assert (Hnd : NoDup (map Table.id (tables Samples.scenario))).
  { apply (bool_decide_unpack _). vm_compute. exact I. }
  split; [exact Hnd|].
  exact (node_ids_distinct (tables Samples.scenario) Hnd).
Defined.

Lemma derived_workspaces_count_witness :
  lacksWorkspaces Samples.scenario = true
  /\ length (Home.allWorkspaces (Some Samples.scenario)) = 1%nat.
Proof.
  split; [reflexivity|].
  exact (proj1 (derived_workspaces_count Samples.scenario eq_refl)).
Defined.

Lemma derived_databases_share_out_tables_witness :
  lacksDatabases Samples.scenario = true
  /\ total (map Database.tableCount (Home.allDatabases (Some Samples.scenario)))
     = 2.
Proof.
  split; [reflexivity|].
  exact (proj2 (derived_databases_share_out_tables Samples.scenario eq_refl)).
Defined.

Lemma summary_names_the_choice_witness :
  lacksWorkspaces Samples.scenario = true
  /\ lacksDatabases Samples.scenario = true
  /\ Home.workspaceSummary (Some Samples.scenario)
       (handleWorkspaceChange "100" initialState)
     = Some "Workspace 100".
Proof.
  split; [reflexivity|split; [reflexivity|]].
  apply (proj1 (summary_names_the_choice Samples.scenario initialState
                  eq_refl eq_refl)
               (Home.derivedWorkspace (tables Samples.scenario) 100)).
  left. reflexivity.
Defined.

Lemma workspace_option_count_is_shown_witness :
  In (Home.derivedWorkspace (tables Samples.scenario) 100)
     (Home.allWorkspaces (Some Samples.scenario))
  /\ 2 = len (Home.filteredTables (Some Samples.scenario)
                (handleWorkspaceChange "100" initialState)).
Proof.
  assert (Hin : In (Home.derivedWorkspace (tables Samples.scenario) 100)
                   (Home.allWorkspaces (Some Samples.scenario))).
  { left. reflexivity. }
  split; [exact Hin|].
  exact (workspace_option_count_is_shown Samples.scenario initialState _ Hin).
Defined.

Lemma database_option_count_bounds_shown_witness :
  In (Home.derivedDatabase (tables Samples.scenario) 10)
     (Home.databasesWithCorrectCounts (Some Samples.scenario) Samples.specific)
  /\ len (Home.filteredTables (Some Samples.scenario)
            (handleDatabaseChange "10" Samples.specific)) <= 2.
Proof.
  assert (Hin : In (Home.derivedDatabase (tables Samples.scenario) 10)
                   (Home.databasesWithCorrectCounts (Some Samples.scenario)
                      Samples.specific)).
  { left. reflexivity. }
  split; [exact Hin|].
  exact (database_option_count_bounds_shown Samples.scenario Samples.specific
           _ Hin).
Defined.



(** ** What the page's selectors can bring about *)

Section Selectors.
Context `{Host}.

Lemma filteredDatabases_by_workspace (erdData : option ERDData)
    (st st' : FilterState) :
  selectedWorkspace st = selectedWorkspace st' ->
  Home.filteredDatabases erdData st = Home.filteredDatabases erdData st'.
Proof. intros Heq. unfold Home.filteredDatabases. now rewrite Heq. Qed.

Lemma workspaceOptions_In (data : ERDData) (value : string) :
  In value (Home.workspaceOptions (Some data))
  <-> value = "all"
      \/ exists ws, In ws (Home.allWorkspaces (Some data))
                    /\ value = toString (Workspace.id ws).
Proof.
  unfold Home.workspaceOptions. cbn [In]. rewrite in_map_iff. split.
  - intros [<-|(ws & <- & Hws)]; [now left|right; now exists ws].
  - intros [->|(ws & Hws & ->)]; [now left|right; now exists ws].
Qed.

Lemma databaseOptions_In (data : ERDData) (st : FilterState) (value : string) :
  In value (Home.databaseOptions (Some data) st)
  <-> value = "all"
      \/ exists db, In db (Home.filteredDatabases (Some data) st)
                    /\ value = toString (Database.id db).
Proof.
  unfold Home.databaseOptions, Home.databasesWithCorrectCounts.
  cbn [In]. rewrite map_map, in_map_iff. cbn [Database.id Database.with_counts].
  split.
  - intros [<-|(db & <- & Hdb)]; [now left|right; now exists db].
  - intros [->|(db & Hdb & ->)]; [now left|right; now exists db].
Qed.

(** X1. Once the data is there, the selections that the page's two
    selectors can bring about are exactly ['all'/'all'] and the pairs made
    of the option of a listed workspace with either ['all'] or the option
    of a database that [filteredDatabases] lists for that workspace. So a
    selected database is always one of the payload's databases whose
    workspace is the selected one. *)
Theorem selectable_iff (data : ERDData) (st : FilterState) :
  (Home.selectable data st
   <-> st = initialState
       \/ exists ws : Workspace.t,
            In ws (Home.allWorkspaces (Some data))
            /\ selectedWorkspace st = toString (Workspace.id ws)
            /\ (selectedDatabase st = "all"
                \/ exists db : Database.t,
                     In db (Home.filteredDatabases (Some data) st)
                     /\ selectedDatabase st = toString (Database.id db)))
  /\ (Home.selectable data st ->
      selectedDatabase st <> "all" ->
      exists db : Database.t,
        In db (Home.allDatabases (Some data))
        /\ selectedDatabase st = toString (Database.id db)
        /\ strict_eq (Database.workspace_id db)
                     (Number_of_string (selectedWorkspace st)) = true).
Proof.
  assert (Hshape : Home.selectable data st ->
            st = initialState
            \/ exists ws : Workspace.t,
                 In ws (Home.allWorkspaces (Some data))
                 /\ selectedWorkspace st = toString (Workspace.id ws)
                 /\ (selectedDatabase st = "all"
                     \/ exists db : Database.t,
                          In db (Home.filteredDatabases (Some data) st)
                          /\ selectedDatabase st = toString (Database.id db))).
  { intros Hsel. induction Hsel as [|st0 e st1 _ IH Hstep]; [now left|].
    inversion Hstep as [s value Hvalue|s value Henabled Hvalue]; subst.
    - apply workspaceOptions_In in Hvalue as [->|(ws & Hws & ->)]; [now left|].
      right. exists ws. cbn. repeat split; [assumption|now left].
    - selector_enabled.
      destruct IH as [->|(ws & Hws & Hsel & _)]; [now contradiction Henabled|].
      right. exists ws. cbn. repeat split; [assumption|assumption|].
      apply databaseOptions_In in Hvalue as [->|(db & Hdb & ->)]; [now left|].
      right. exists db. split; [|reflexivity].
      now rewrite (filteredDatabases_by_workspace _ _ st0). }
  split; [split; [exact Hshape|]|].
  - intros [->|(ws & Hws & Hsel & Hdb)]; [constructor|].
    destruct st as [w d]. cbn in Hsel, Hdb. subst w.
    assert (Hbase : Home.selectable data
                      (handleWorkspaceChange (toString (Workspace.id ws))
                         initialState)).
    { eapply Home.selectable_step; [constructor|].
      apply Home.selects_workspace, workspaceOptions_In.
      right. now exists ws. }
    destruct Hdb as [->|(db & Hdb & ->)]; [exact Hbase|].
    apply (Home.selectable_step data _
             (DatabaseChange (toString (Database.id db))) _ Hbase).
    apply (Home.selects_database data
             (handleWorkspaceChange (toString (Workspace.id ws)) initialState)).
    + apply toString_not_all.
    + apply databaseOptions_In. right. exists db. split; [|reflexivity].
      now rewrite (filteredDatabases_by_workspace _ _
                     {| selectedWorkspace := toString (Workspace.id ws);
                        selectedDatabase := toString (Database.id db) |}).
  - intros Hsel Hspecific.
    destruct (Hshape Hsel) as [->|(ws & Hws & Hw & [Hall|(db & Hdb & Hd)])];
      [now contradiction Hspecific|now contradiction Hspecific|].
    rewrite filteredDatabases_specific in Hdb
      by (rewrite Hw; apply toString_not_all).
    apply filter_In in Hdb as [Hin Hmatch].
    now exists db.
Qed.

End Selectors.

Lemma selectable_iff_witness :
  Home.selectable Samples.scenario Samples.specific
  /\ ~ Home.selectable Samples.scenario Samples.unmatched.
Proof.
  split.
  - apply (proj1 (selectable_iff Samples.scenario Samples.specific)).
    right. exists (Home.derivedWorkspace (tables Samples.scenario) 100).
    split; [left; reflexivity|split; [reflexivity|]].
    right. exists (Home.derivedDatabase (tables Samples.scenario) 10).
    split; [left; reflexivity|reflexivity].
  - intros Hsel.
    apply (proj1 (selectable_iff Samples.scenario Samples.unmatched)) in Hsel.
    destruct Hsel as [Hinit|(ws & [<-|[]] & Hws & _)]; discriminate.
Defined.
